(** * pdf-to-epub-mail: the request pipeline of [main.py]

    A shallow embedding of [src/main.py]: bearer-token check, upload
    validation, the temporary workspace, the call of the external converter,
    the SMTP session, and the two POST endpoints built from them.

    Conventions of the embedding.
    - A Python [str] is a [string]; one [ascii] cell stands for one character.
      HTTP header values reach the handler decoded as latin-1, so for them
      the cell is the character.
    - [bytes] is [list byte].
    - The module-level settings read from the process environment
      ([BEARER_TOKEN], [SMTP_HOST], ...) are the fields of [Config].
    - The filesystem is a finite map from paths to nodes; the mail that the
      SMTP server accepted is the [outbox]; every call that leaves the
      process is recorded, in order, in [events].
    - What the outside world answers (the converter's exit status, an SMTP
      refusal, a failing write) is read from an [Env] of oracles, each of
      which sees the history of calls made so far. What the [email] library
      refuses when a message is built (a header value of two lines) is read
      from the [Env] as well.
    - Exceptions are values of [exn]; a handler is a function
      [World -> (exn + A) * World].
    - Calls of [logger] are not part of the model. *)

From Stdlib Require Import ZArith Ascii String List Lia.
From Stdlib.Strings Require Import Byte.
From stdpp Require Import base option list strings gmap fin_maps pretty.

Open Scope string_scope.
Open Scope Z_scope.
Open Scope list_scope.

(** ** Python string operations used by the program *)

Module PyStr.

(** [s.startswith(p)] *)
Fixpoint startswith (p s : string) : bool :=
  match p, s with
  | EmptyString, _ => true
  | String a p', String b s' => if decide (a = b) then startswith p' s' else false
  | String _ _, EmptyString => false
  end.

(** The characters [str.isspace] accepts below U+0100; [str.strip()]
    removes exactly these. *)
Definition isspace (c : ascii) : bool :=
  let n := N_of_ascii c in
  ((9 <=? n) && (n <=? 13))%N || ((28 <=? n) && (n <=? 32))%N
  || (n =? 133)%N || (n =? 160)%N.

Fixpoint lstrip (s : string) : string :=
  match s with
  | EmptyString => EmptyString
  | String c s' => if isspace c then lstrip s' else s
  end.

Fixpoint rstrip (s : string) : string :=
  match s with
  | EmptyString => EmptyString
  | String c s' =>
      match rstrip s' with
      | EmptyString => if isspace c then EmptyString else String c EmptyString
      | r => String c r
      end
  end.

(** [s.strip()] *)
Definition strip (s : string) : string := lstrip (rstrip s).

(** [s.split(sep, 1)] for a one-character separator: the text before the
    first [sep] and the text after it, or [s] alone when [sep] is absent. *)
Fixpoint split1 (sep : ascii) (s : string) : list string :=
  match s with
  | EmptyString => [EmptyString]
  | String c s' =>
      if decide (c = sep) then [EmptyString; s']
      else match split1 sep s' with
           | h :: t => String c h :: t
           | [] => []
           end
  end.

Fixpoint drop (k : nat) (s : string) : string :=
  match k, s with
  | O, _ => s
  | S k', String _ s' => drop k' s'
  | S _, EmptyString => EmptyString
  end.

(** [s[-n:]] for a positive literal [n] *)
Definition tail (n : nat) (s : string) : string :=
  drop (String.length s - n) s.

(** The truth value of a [str]: [if s:] holds for a non-empty [s]. *)
Definition truthy (s : string) : bool :=
  match s with EmptyString => false | _ => true end.

End PyStr.

(** ** Paths *)

Module PyPath.

(** [Path(d) / name] *)
Definition join (d name : string) : string := d +:+ "/" +:+ name.

Fixpoint name_go (cur : string) (s : string) : string :=
  match s with
  | EmptyString => String.rev cur
  | String c s' =>
      if decide (c = "/"%char) then name_go EmptyString s'
      else name_go (String c cur) s'
  end.

(** [Path(p).name]: the final component *)
Definition name (p : string) : string := name_go EmptyString p.

(** [p] is [d] itself or lies below it *)
Definition within (d p : string) : bool :=
  bool_decide (p = d) || PyStr.startswith (d +:+ "/") p.

End PyPath.

(** ** Data model *)

(** The module-level settings of [main.py], read once from the process
    environment. *)
Record Config := {
  BEARER_TOKEN : string;
  KINDLE_EMAIL : string;
  SMTP_HOST : string;
  SMTP_PORT : Z;
  SMTP_USER : string;
  SMTP_PASS : string;
  SMTP_FROM : string;
  SMTP_TLS : bool;
  EBOOK_CONVERT_BIN : string;
  MAX_PDF_BYTES : Z
}.

(** The exceptions the program raises or lets through. [OtherException]
    is any other subclass of [Exception]; it carries its [str()]. *)
Inductive exn :=
| HTTPException (status_code : Z) (detail : string)
| RuntimeError (msg : string)
| IndexError (msg : string)
| SMTPAuthenticationError (text : string)
| OtherException (text : string).

(** [str(e)] *)
Definition str_exn (e : exn) : string :=
  match e with
  | HTTPException c d => pretty c +:+ ": " +:+ d
  | RuntimeError m => m
  | IndexError m => m
  | SMTPAuthenticationError t => t
  | OtherException t => t
  end.

Record Attachment := {
  att_data : list byte;
  att_maintype : string;
  att_subtype : string;
  att_filename : string
}.

(** [email.message.EmailMessage] as the program fills it *)
Record EmailMessage := {
  msg_From : string;
  msg_To : string;
  msg_Subject : string;
  msg_content : string;
  msg_attachment : option Attachment
}.

Inductive node :=
| Dir
| File (data : list byte).

(** Calls that leave the process, in the order they are made *)
Inductive event :=
| EvReadUpload
| EvMkdtemp (td : string)
| EvRmtree (td : string)
| EvWriteBytes (p : string)
| EvRun (cmd : list string)
| EvReadBytes (p : string)
| EvSmtpConnect (host : string) (port timeout : Z)
| EvStartTLS
| EvLogin (user password : string)
| EvSendMessage (m : EmailMessage)
| EvQuit.

(** What [subprocess.run(cmd, check=True, ...)] can do *)
Inductive run_outcome :=
| RunFileNotFound                      (* FileNotFoundError: no such command *)
| RunRaised (e : exn)                  (* any other exception of the spawn *)
| RunCompleted (returncode : Z) (stdout stderr : list byte).

Record World := {
  fs : gmap string node;
  outbox : list EmailMessage;
  events : list event
}.

(** The answers of the outside world. Every oracle is given the calls made
    so far, so that two calls of one operation may be answered differently. *)
Record Env := {
  (* [tempfile.TemporaryDirectory()]: the fresh directory, or a failure *)
  tmp_create : list event -> exn + string;
  (* [Path.write_bytes]: [Some e] when the write raises [e] *)
  fs_write : list event -> string -> option exn;
  (* [Path.read_bytes] of an existing file: [Some e] when it raises [e] *)
  fs_read : list event -> string -> option exn;
  (* [st_size] the platform reports for a directory *)
  dir_st_size : Z;
  (* the converter process: its outcome and what it did to the filesystem *)
  proc_run : list event -> list string -> gmap string node ->
             run_outcome * gmap string node;
  (* [bytes.decode(errors="replace")] *)
  bytes_decode : list byte -> string;
  (* the SMTP server, one oracle per client call *)
  smtp_connect : list event -> string -> Z -> Z -> option exn;
  smtp_starttls : list event -> option exn;
  smtp_login : list event -> string -> string -> option exn;
  smtp_send_message : list event -> EmailMessage -> option exn;
  (* [SMTP.__exit__]: [Some e] when leaving the session raises [e], which it
     does when QUIT is not answered with 221 *)
  smtp_quit : list event -> option exn;
  (* [msg[name] = value] of [email.message]: [Some e] when it raises [e], as
     it does for a value with a line break in it *)
  email_header : string -> string -> option exn;
  (* [msg.set_content(body)] *)
  email_set_content : string -> option exn;
  (* [msg.add_attachment(data, maintype=..., subtype=..., filename=...)] *)
  email_add_attachment : Attachment -> option exn
}.

(** JSON bodies of the responses: flat objects of booleans and strings *)
Inductive jvalue :=
| JBool (b : bool)
| JStr (s : string).

Definition json : Type := list (string * jvalue).

Inductive body :=
| JsonBody (j : json)
| TextBody (s : string).

Record Response := {
  status : Z;
  content : body
}.

(** The upload of [POST /convert] with its [Authorization] header *)
Record ConvertRequest := {
  authorization : option string;
  filename : option string;
  content_type : option string;
  raw : list byte
}.

(** ** Exceptions and state *)

Definition M (A : Type) : Type := World -> (exn + A) * World.

Definition ret {A} (a : A) : M A := fun w => (inr a, w).

Definition raise {A} (e : exn) : M A := fun w => (inl e, w).

Definition bind {A B} (m : M A) (k : A -> M B) : M B :=
  fun w =>
    match m w with
    | (inr a, w') => k a w'
    | (inl e, w') => (inl e, w')
    end.

(** [try: m except Exception as e: h e] *)
Definition try_except {A} (m : M A) (h : exn -> M A) : M A :=
  fun w =>
    match m w with
    | (inr a, w') => (inr a, w')
    | (inl e, w') => h e w'
    end.

(** [try: m finally: c], the exit discipline of a [with] block: [c] runs on
    every way out of [m], and the outcome of [m] is kept. *)
Definition finally {A} (m : M A) (c : World -> World) : M A :=
  fun w => let '(r, w') := m w in (r, c w').

(** [with ... as s: m] for a context manager whose [__exit__] is [x] and
    may raise: [x] runs on every way out of [m]; what [x] raises replaces
    the outcome of [m], otherwise that outcome is kept. *)
Definition with_exit {A} (m : M A) (x : M unit) : M A :=
  fun w =>
    let '(r, w') := m w in
    match x w' with
    | (inl e, w'') => (inl e, w'')
    | (inr _, w'') => (r, w'')
    end.

Declare Scope py_scope.
Delimit Scope py_scope with py.
Notation "x <- m ;; k" := (bind m (fun x => k))
  (at level 100, m at next level, right associativity) : py_scope.
Notation "m ;; k" := (bind m (fun _ => k))
  (at level 100, right associativity) : py_scope.
Open Scope py_scope.

Definition emit (e : event) : M unit :=
  fun w => (inr tt, {| fs := fs w; outbox := outbox w; events := events w ++ [e] |}).

Definition set_fs (f : gmap string node) (w : World) : World :=
  {| fs := f; outbox := outbox w; events := events w |}.


(** ** The program *)

Section Program.
Context (cfg : Config) (env : Env).

(** *** Filesystem and temporary directory *)

(** [Path.exists()] *)
Definition path_exists (p : string) : M bool :=
  fun w => (inr (bool_decide (is_Some (fs w !! p))), w).

(** [Path.stat().st_size] *)
Definition stat_st_size (p : string) : M Z :=
  fun w =>
    match fs w !! p with
    | Some (File d) => (inr (Z.of_nat (length d)), w)
    | Some Dir => (inr (dir_st_size env), w)
    | None => (inl (OtherException
                      ("[Errno 2] No such file or directory: '" +:+ p +:+ "'")), w)
    end.

(** [Path.write_bytes(data)] *)
Definition write_bytes (p : string) (data : list byte) : M unit :=
  fun w =>
    let w1 := {| fs := fs w; outbox := outbox w;
                 events := events w ++ [EvWriteBytes p] |} in
    match fs_write env (events w) p with
    | Some e => (inl e, w1)
    | None => (inr tt, set_fs (<[p := File data]> (fs w)) w1)
    end.

(** [Path.read_bytes()] *)
Definition read_bytes (p : string) : M (list byte) :=
  fun w =>
    let w1 := {| fs := fs w; outbox := outbox w;
                 events := events w ++ [EvReadBytes p] |} in
    match fs w !! p with
    | Some (File d) =>
        match fs_read env (events w) p with
        | Some e => (inl e, w1)
        | None => (inr d, w1)
        end
    | Some Dir =>
        (inl (OtherException ("[Errno 21] Is a directory: '" +:+ p +:+ "'")), w1)
    | None =>
        (inl (OtherException
                ("[Errno 2] No such file or directory: '" +:+ p +:+ "'")), w1)
    end.

(** [tempfile.TemporaryDirectory().__enter__()] *)
Definition TemporaryDirectory_enter : M string :=
  fun w =>
    match tmp_create env (events w) with
    | inl e => (inl e, w)
    | inr td => (inr td, {| fs := <[td := Dir]> (fs w); outbox := outbox w;
                            events := events w ++ [EvMkdtemp td] |})
    end.

(** [TemporaryDirectory.cleanup()]: the directory and all below it go. *)
Definition TemporaryDirectory_cleanup (td : string) (w : World) : World :=
  {| fs := filter (fun kv => PyPath.within td kv.1 = false) (fs w);
     outbox := outbox w;
     events := events w ++ [EvRmtree td] |}.

(** [with tempfile.TemporaryDirectory() as td: body] *)
Definition with_TemporaryDirectory {A} (body : string -> M A) : M A :=
  td <- TemporaryDirectory_enter ;;
  finally (body td) (TemporaryDirectory_cleanup td).

(** *** [require_bearer] *)

Definition require_bearer (authorization : option string) : M unit :=
  match authorization with
  | None => raise (HTTPException 401 "Missing bearer token")
  | Some a =>
      if negb (PyStr.truthy a) then
        raise (HTTPException 401 "Missing bearer token")
      else if negb (PyStr.startswith "Bearer " a) then
        raise (HTTPException 401 "Missing bearer token")
      else
        match PyStr.split1 " " a !! 1%nat with
        | None => raise (IndexError "list index out of range")
        | Some rest =>
            let token := PyStr.strip rest in
            if negb (PyStr.truthy token) then
              raise (HTTPException 401 "Missing bearer token")
            else if negb (bool_decide (token = BEARER_TOKEN cfg)) then
              raise (HTTPException 403 "Invalid bearer token")
            else ret tt
        end
  end.

(** *** [pdf_to_epub] *)

(** [subprocess.run(cmd, check=True, stdout=PIPE, stderr=PIPE)] *)
Definition subprocess_run (cmd : list string) (w : World) : run_outcome * World :=
  let '(o, f) := proc_run env (events w) cmd (fs w) in
  (o, {| fs := f; outbox := outbox w; events := events w ++ [EvRun cmd] |}).

Definition pdf_to_epub (pdf_path epub_path : string) : M unit :=
  let cmd := [EBOOK_CONVERT_BIN cfg; pdf_path; epub_path] in
  (* the try block and its two except clauses *)
  (fun w =>
     match subprocess_run cmd w with
     | (RunCompleted rc out err, w') =>
         if decide (rc = 0) then (inr tt, w')
         else
           (* except subprocess.CalledProcessError *)
           let stderr := bytes_decode env err in
           (inl (RuntimeError ("Conversion failed: " +:+ PyStr.tail 2000 stderr)), w')
     | (RunFileNotFound, w') =>
         (* except FileNotFoundError *)
         (inl (RuntimeError
                 "Conversion failed: ebook-convert not found (install calibre)"), w')
     | (RunRaised e, w') => (inl e, w')
     end) ;;
  ex <- path_exists epub_path ;;
  (* [not exists() or st_size == 0], left to right *)
  bad <- (if negb ex then ret true
          else sz <- stat_st_size epub_path ;; ret (sz =? 0)) ;;
  if (bad : bool) then
    raise (RuntimeError "Conversion failed: output EPUB was not created")
  else ret tt.

(** *** [send_email_with_attachment] *)

(** [smtplib.SMTP(host, port, timeout=t)]: the connection is made by the
    constructor; when it raises there is no session to leave. *)
Definition SMTP_open (host : string) (port timeout : Z) : M unit :=
  fun w =>
    let w1 := {| fs := fs w; outbox := outbox w;
                 events := events w ++ [EvSmtpConnect host port timeout] |} in
    match smtp_connect env (events w) host port timeout with
    | Some e => (inl e, w1)
    | None => (inr tt, w1)
    end.

Definition SMTP_starttls : M unit :=
  fun w =>
    let w1 := {| fs := fs w; outbox := outbox w;
                 events := events w ++ [EvStartTLS] |} in
    match smtp_starttls env (events w) with
    | Some e => (inl e, w1)
    | None => (inr tt, w1)
    end.

Definition SMTP_login (user password : string) : M unit :=
  fun w =>
    let w1 := {| fs := fs w; outbox := outbox w;
                 events := events w ++ [EvLogin user password] |} in
    match smtp_login env (events w) user password with
    | Some e => (inl e, w1)
    | None => (inr tt, w1)
    end.

(** [s.send_message(msg)]: an accepted message joins the outbox. *)
Definition SMTP_send_message (msg : EmailMessage) : M unit :=
  fun w =>
    match smtp_send_message env (events w) msg with
    | Some e => (inl e, {| fs := fs w; outbox := outbox w;
                           events := events w ++ [EvSendMessage msg] |})
    | None => (inr tt, {| fs := fs w; outbox := outbox w ++ [msg];
                          events := events w ++ [EvSendMessage msg] |})
    end.

(** [SMTP.__exit__]: QUIT, which raises when the answer is not 221, and
    close *)
Definition SMTP_exit : M unit :=
  fun w =>
    let w1 := {| fs := fs w; outbox := outbox w;
                 events := events w ++ [EvQuit] |} in
    match smtp_quit env (events w) with
    | Some e => (inl e, w1)
    | None => (inr tt, w1)
    end.

(** [msg[name] = value] *)
Definition set_header (name value : string) : M unit :=
  fun w =>
    match email_header env name value with
    | Some e => (inl e, w)
    | None => (inr tt, w)
    end.

(** [msg.set_content(body)] *)
Definition set_content (body : string) : M unit :=
  fun w =>
    match email_set_content env body with
    | Some e => (inl e, w)
    | None => (inr tt, w)
    end.

(** [msg.add_attachment(...)] *)
Definition add_attachment (att : Attachment) : M unit :=
  fun w =>
    match email_add_attachment env att with
    | Some e => (inl e, w)
    | None => (inr tt, w)
    end.

(** The block [with smtplib.SMTP(SMTP_HOST, SMTP_PORT, timeout=30) as s: ...],
    which [send_email_with_attachment] and [test_email] both contain. *)
Definition smtp_session (msg : EmailMessage) : M unit :=
  SMTP_open (SMTP_HOST cfg) (SMTP_PORT cfg) 30 ;;
  with_exit
    ((if SMTP_TLS cfg then SMTP_starttls else ret tt) ;;
     (if PyStr.truthy (SMTP_USER cfg)
      then SMTP_login (SMTP_USER cfg) (SMTP_PASS cfg) else ret tt) ;;
     SMTP_send_message msg)
    SMTP_exit.

Definition send_email_with_attachment
    (subject body to_addr attachment_path : string) : M unit :=
  if negb (PyStr.truthy (SMTP_HOST cfg)) then
    raise (RuntimeError "SMTP_HOST is not set")
  else
    ex <- path_exists attachment_path ;;
    if negb ex then raise (RuntimeError "Attachment not found")
    else
      data <- read_bytes attachment_path ;;
      set_header "From" (SMTP_FROM cfg) ;;
      set_header "To" to_addr ;;
      set_header "Subject" subject ;;
      set_content body ;;
      let att := {| att_data := data;
                    att_maintype := "application";
                    att_subtype := "epub+zip";
                    att_filename := PyPath.name attachment_path |} in
      add_attachment att ;;
      let msg := {| msg_From := SMTP_FROM cfg;
                    msg_To := to_addr;
                    msg_Subject := subject;
                    msg_content := body;
                    msg_attachment := Some att |} in
      try_except (smtp_session msg)
        (fun e =>
           match e with
           | SMTPAuthenticationError _ =>
               raise (RuntimeError
                 "Email failed: SMTP authentication failed (check SMTP_USER/SMTP_PASS)")
           | _ => raise (RuntimeError ("Email failed: " +:+ str_exn e))
           end).

(** *** [POST /convert] *)

(** [content_type not in ("application/pdf", "application/octet-stream")];
    [UploadFile.content_type] may be [None]. *)
Definition accepted_content_type (ct : option string) : bool :=
  match ct with
  | Some t => bool_decide (t = "application/pdf")
              || bool_decide (t = "application/octet-stream")
  | None => false
  end.

(** How an f-string prints an optional [str] *)
Definition fmt_opt (o : option string) : string :=
  match o with
  | Some t => t
  | None => "None"
  end.

(** [await file.read()] *)
Definition read_upload (req : ConvertRequest) : M (list byte) :=
  emit EvReadUpload ;; ret (raw req).

Definition convert_pdf_to_epub_endpoint (req : ConvertRequest) : M json :=
  require_bearer (authorization req) ;;
  (if negb (accepted_content_type (content_type req)) then
     raise (HTTPException 400 ("Expected PDF, got " +:+ fmt_opt (content_type req)))
   else ret tt) ;;
  raw <- read_upload req ;;
  (if Z.of_nat (length raw) >? MAX_PDF_BYTES cfg then
     raise (HTTPException 413 "PDF too large")
   else ret tt) ;;
  with_TemporaryDirectory (fun td =>
    let pdf_path := PyPath.join td "input.pdf" in
    let epub_path := PyPath.join td "output.epub" in
    write_bytes pdf_path raw ;;
    try_except (pdf_to_epub pdf_path epub_path)
      (fun e => raise (HTTPException 500 (str_exn e))) ;;
    try_except
      (send_email_with_attachment
         "Your converted EPUB"
         "Attached is the EPUB converted from your PDF."
         (KINDLE_EMAIL cfg)
         epub_path)
      (fun e => raise (HTTPException 502 (str_exn e)))) ;;
  ret [("ok", JBool true); ("sent_to", JStr (KINDLE_EMAIL cfg))].

(** *** [POST /test-email] *)

(** The message the fallback branch of [test_email] builds *)
Definition plain_test_message : EmailMessage :=
  {| msg_From := SMTP_FROM cfg;
     msg_To := "ozzy.dave@gmail.com";
     msg_Subject := "SMTP test (no attachment)";
     msg_content := "If you received this, SMTP is working.";
     msg_attachment := None |}.

Definition test_email (authorization : option string) : M json :=
  require_bearer authorization ;;
  try_except
    (send_email_with_attachment
       "SMTP test (no attachment)"
       "If you received this, SMTP is working."
       (KINDLE_EMAIL cfg)
       "/dev/null")
    (fun _ =>
       try_except
         ((if negb (PyStr.truthy (SMTP_HOST cfg)) then
             raise (RuntimeError "SMTP_HOST is not set")
           else ret tt) ;;
          set_header "From" (SMTP_FROM cfg) ;;
          set_header "To" "ozzy.dave@gmail.com" ;;
          set_header "Subject" "SMTP test (no attachment)" ;;
          set_content "If you received this, SMTP is working." ;;
          smtp_session plain_test_message)
         (fun e => raise (HTTPException 502 (str_exn e)))) ;;
  ret [("ok", JBool true); ("sent_to", JStr (KINDLE_EMAIL cfg))].

End Program.

(** *** The framework's side of a handler

    FastAPI turns a returned object into a 200 JSON response, a raised
    [HTTPException(c, d)] into status [c] with body [{"detail": d}], and
    any other exception into a plain 500. *)
Definition http_response (r : exn + json) : Response :=
  match r with
  | inr j => {| status := 200; content := JsonBody j |}
  | inl (HTTPException c d) => {| status := c; content := JsonBody [("detail", JStr d)] |}
  | inl _ => {| status := 500; content := TextBody "Internal Server Error" |}
  end.

(** *** Observations on a run *)

(** The world once one more call is on record *)
Definition logged (e : event) (w : World) : World :=
  {| fs := fs w; outbox := outbox w; events := events w ++ [e] |}.

(** The events a run added to the history *)
Definition new_events (w w' : World) : list event :=
  skipn (length (events w)) (events w').

Definition is_network (e : event) : bool :=
  match e with
  | EvSmtpConnect _ _ _ | EvStartTLS | EvLogin _ _ | EvSendMessage _ | EvQuit => true
  | _ => false
  end.

(** The client calls of a session, its end apart *)
Definition is_session_step (e : event) : bool :=
  match e with
  | EvSmtpConnect _ _ _ | EvStartTLS | EvLogin _ _ | EvSendMessage _ => true
  | _ => false
  end.

(** Creation and removal of temporary directories *)
Definition is_workspace_event (e : event) : bool :=
  match e with
  | EvMkdtemp _ | EvRmtree _ => true
  | _ => false
  end.

Definition is_acquire (td : string) (e : event) : bool :=
  match e with
  | EvMkdtemp d => bool_decide (d = td)
  | _ => false
  end.

Definition is_release (td : string) (e : event) : bool :=
  match e with
  | EvRmtree d => bool_decide (d = td)
  | _ => false
  end.

(** How often an event of some kind occurs *)
Definition occurrences (P : event -> bool) (l : list event) : nat :=
  length (List.filter P l).

(** ** A concrete deployment, for examples *)

Module Demo.

Definition cfg : Config :=
  {| BEARER_TOKEN := "s3cret";
     KINDLE_EMAIL := "reader@kindle.example";
     SMTP_HOST := "smtp.example.com";
     SMTP_PORT := 587;
     SMTP_USER := "mailer";
     SMTP_PASS := "pw";
     SMTP_FROM := "mailer@example.com";
     SMTP_TLS := true;
     EBOOK_CONVERT_BIN := "ebook-convert";
     MAX_PDF_BYTES := 4 |}.

(** A converter that writes a three-byte EPUB to its second argument *)
Definition good_converter (cmd : list string) (f : gmap string node)
  : run_outcome * gmap string node :=
  match cmd with
  | [_; _; out] => (RunCompleted 0 [] [], <[out := File ["E"%byte; "P"%byte; "U"%byte]]> f)
  | _ => (RunCompleted 2 [] [], f)
  end.

(** One byte per character, enough for the examples *)
Definition latin1 (b : list byte) : string :=
  string_of_list_ascii (map ascii_of_byte b).

(** Everything works. *)
Definition env : Env :=
  {| tmp_create := fun _ => inr "/tmp/tmpab12";
     fs_write := fun _ _ => None;
     fs_read := fun _ _ => None;
     dir_st_size := 4096;
     proc_run := fun _ => good_converter;
     bytes_decode := latin1;
     smtp_connect := fun _ _ _ _ => None;
     smtp_starttls := fun _ => None;
     smtp_login := fun _ _ _ => None;
     smtp_send_message := fun _ _ => None;
     smtp_quit := fun _ => None;
     email_header := fun _ _ => None;
     email_set_content := fun _ => None;
     email_add_attachment := fun _ => None |}.

Definition w0 : World :=
  {| fs := {[ "/dev/null" := File [] ]}; outbox := []; events := [] |}.

Definition req : ConvertRequest :=
  {| authorization := Some "Bearer s3cret";
     filename := Some "book.pdf";
     content_type := Some "application/pdf";
     raw := ["%"%byte; "P"%byte; "D"%byte] |}.

(** Five bytes, one more than [MAX_PDF_BYTES] allows, declared as text *)
Definition big_text_req : ConvertRequest :=
  {| authorization := Some "Bearer s3cret";
     filename := Some "notes.txt";
     content_type := Some "text/plain";
     raw := ["h"%byte; "e"%byte; "l"%byte; "l"%byte; "o"%byte] |}.

(** The same five bytes declared as a PDF *)
Definition big_pdf_req : ConvertRequest :=
  {| authorization := Some "Bearer s3cret";
     filename := Some "big.pdf";
     content_type := Some "application/pdf";
     raw := ["h"%byte; "e"%byte; "l"%byte; "l"%byte; "o"%byte] |}.

(** A converter that exits with status 1 after 2003 bytes on stderr *)
Definition long_stderr : list byte :=
  List.repeat "x"%byte 2000 ++ ["E"%byte; "N"%byte; "D"%byte].

Definition failing_env : Env :=
  {| tmp_create := fun _ => inr "/tmp/tmpab12";
     fs_write := fun _ _ => None;
     fs_read := fun _ _ => None;
     dir_st_size := 4096;
     proc_run := fun _ _ f => (RunCompleted 1 [] long_stderr, f);
     bytes_decode := latin1;
     smtp_connect := fun _ _ _ _ => None;
     smtp_starttls := fun _ => None;
     smtp_login := fun _ _ _ => None;
     smtp_send_message := fun _ _ => None;
     smtp_quit := fun _ => None;
     email_header := fun _ _ => None;
     email_set_content := fun _ => None;
     email_add_attachment := fun _ => None |}.

(** A converter that exits with status 0 and writes nothing *)
Definition silent_env : Env :=
  {| tmp_create := fun _ => inr "/tmp/tmpab12";
     fs_write := fun _ _ => None;
     fs_read := fun _ _ => None;
     dir_st_size := 4096;
     proc_run := fun _ _ f => (RunCompleted 0 [] [], f);
     bytes_decode := latin1;
     smtp_connect := fun _ _ _ _ => None;
     smtp_starttls := fun _ => None;
     smtp_login := fun _ _ _ => None;
     smtp_send_message := fun _ _ => None;
     smtp_quit := fun _ => None;
     email_header := fun _ _ => None;
     email_set_content := fun _ => None;
     email_add_attachment := fun _ => None |}.

(** The world of [req] once its workspace is set up *)
Definition ready_world : World :=
  {| fs := <["/tmp/tmpab12/input.pdf" := File (raw req)]>
             (<["/tmp/tmpab12" := Dir]> (fs w0));
     outbox := [];
     events := [EvReadUpload; EvMkdtemp "/tmp/tmpab12";
                EvWriteBytes "/tmp/tmpab12/input.pdf"] |}.

(** A host without [/dev/null] *)
Definition w_bare : World := {| fs := ∅; outbox := []; events := [] |}.

(** A server that refuses the first message of a history and accepts
    any later one *)
Definition flaky_env : Env :=
  {| tmp_create := fun _ => inr "/tmp/tmpab12";
     fs_write := fun _ _ => None;
     fs_read := fun _ _ => None;
     dir_st_size := 4096;
     proc_run := fun _ => good_converter;
     bytes_decode := latin1;
     smtp_connect := fun _ _ _ _ => None;
     smtp_starttls := fun _ => None;
     smtp_login := fun _ _ _ => None;
     smtp_send_message := fun h _ =>
       if existsb (fun e => match e with EvSendMessage _ => true | _ => false end) h
       then None
       else Some (OtherException "(552, b'message rejected')");
     smtp_quit := fun _ => None;
     email_header := fun _ _ => None;
     email_set_content := fun _ => None;
     email_add_attachment := fun _ => None |}.


(** A server that takes the whole session and then answers QUIT with a
    code other than 221 *)
Definition quit_env : Env :=
  {| tmp_create := fun _ => inr "/tmp/tmpab12";
     fs_write := fun _ _ => None;
     fs_read := fun _ _ => None;
     dir_st_size := 4096;
     proc_run := fun _ => good_converter;
     bytes_decode := latin1;
     smtp_connect := fun _ _ _ _ => None;
     smtp_starttls := fun _ => None;
     smtp_login := fun _ _ _ => None;
     smtp_send_message := fun _ _ => None;
     smtp_quit := fun _ => Some (OtherException "(421, b'closing')");
     email_header := fun _ _ => None;
     email_set_content := fun _ => None;
     email_add_attachment := fun _ => None |}.

Fixpoint has_line_break (s : string) : bool :=
  match s with
  | EmptyString => false
  | String c r =>
      bool_decide (c = "010"%char) || bool_decide (c = "013"%char)
      || has_line_break r
  end.

(** A message library that refuses a header value of more than one line *)
Definition strict_env : Env :=
  {| tmp_create := fun _ => inr "/tmp/tmpab12";
     fs_write := fun _ _ => None;
     fs_read := fun _ _ => None;
     dir_st_size := 4096;
     proc_run := fun _ => good_converter;
     bytes_decode := latin1;
     smtp_connect := fun _ _ _ _ => None;
     smtp_starttls := fun _ => None;
     smtp_login := fun _ _ _ => None;
     smtp_send_message := fun _ _ => None;
     smtp_quit := fun _ => None;
     email_header := fun _ v =>
       if has_line_break v
       then Some (OtherException
                    "Header values may not contain linefeed or carriage return characters")
       else None;
     email_set_content := fun _ => None;
     email_add_attachment := fun _ => None |}.

(** A sender address of two lines *)
Definition cfg_two_line_from : Config :=
  {| BEARER_TOKEN := "s3cret";
     KINDLE_EMAIL := "reader@kindle.example";
     SMTP_HOST := "smtp.example.com";
     SMTP_PORT := 587;
     SMTP_USER := "mailer";
     SMTP_PASS := "pw";
     SMTP_FROM := String "a"%char (String "010"%char "Bcc: x@example.com");
     SMTP_TLS := true;
     EBOOK_CONVERT_BIN := "ebook-convert";
     MAX_PDF_BYTES := 4 |}.

Definition cfg_no_host : Config :=
  {| BEARER_TOKEN := "s3cret";
     KINDLE_EMAIL := "reader@kindle.example";
     SMTP_HOST := EmptyString;
     SMTP_PORT := 587;
     SMTP_USER := "mailer";
     SMTP_PASS := "pw";
     SMTP_FROM := "mailer@example.com";
     SMTP_TLS := true;
     EBOOK_CONVERT_BIN := "ebook-convert";
     MAX_PDF_BYTES := 4 |}.

End Demo.

(** ** The Authorizer as the specification words it

    [authorize(headerValue)]: [Unauthorized] when the header is absent, does
    not begin with ["Bearer "], or carries an empty token once trimmed;
    [Forbidden] when the token differs from the secret; success otherwise. *)

(** The token of a header that begins with ["Bearer "]: what follows the
    seven characters of the prefix, trimmed. *)
Definition header_token (a : string) : string := PyStr.strip (PyStr.drop 7 a).

Definition well_formed (a : string) : Prop :=
  PyStr.startswith "Bearer " a = true /\ header_token a <> EmptyString.

Definition Unauthorized : exn := HTTPException 401 "Missing bearer token".
Definition Forbidden : exn := HTTPException 403 "Invalid bearer token".

Definition authorize_spec (secret : string) (h : option string) : exn + unit :=
  match h with
  | None => inl Unauthorized
  | Some a =>
      if PyStr.startswith "Bearer " a then
        if bool_decide (header_token a = EmptyString) then inl Unauthorized
        else if bool_decide (header_token a = secret) then inr tt
        else inl Forbidden
      else inl Unauthorized
  end.

(** ** The session protocol of the Mail Dispatcher

    The client calls of one session in the order the specification gives
    them: connect with a 30 second timeout, STARTTLS when TLS is on, LOGIN
    when a user name is configured, then the message. *)
Definition session_script (cfg : Config) (msg : EmailMessage) : list event :=
  [EvSmtpConnect (SMTP_HOST cfg) (SMTP_PORT cfg) 30]
  ++ (if SMTP_TLS cfg then [EvStartTLS] else [])
  ++ (if PyStr.truthy (SMTP_USER cfg)
      then [EvLogin (SMTP_USER cfg) (SMTP_PASS cfg)] else [])
  ++ [EvSendMessage msg].

(** The message [send_email_with_attachment] builds from its arguments and
    the bytes of the attachment *)
Definition attachment_message (cfg : Config)
    (subject body to_addr attachment_path : string) (data : list byte)
  : EmailMessage :=
  {| msg_From := SMTP_FROM cfg;
     msg_To := to_addr;
     msg_Subject := subject;
     msg_content := body;
     msg_attachment :=
       Some {| att_data := data;
               att_maintype := "application";
               att_subtype := "epub+zip";
               att_filename := PyPath.name attachment_path |} |}.

(** What [exists()] and [stat().st_size] tell about a path: [None] when
    nothing is there, otherwise the size reported. *)
Definition size_on_disk (env : Env) (f : gmap string node) (p : string) : option Z :=
  match f !! p with
  | Some (File d) => Some (Z.of_nat (length d))
  | Some Dir => Some (dir_st_size env)
  | None => None
  end.

Definition EmptyOutput : exn :=
  RuntimeError "Conversion failed: output EPUB was not created".

Definition ToolMissing : exn :=
  RuntimeError "Conversion failed: ebook-convert not found (install calibre)".

Definition ToolFailed (excerpt : string) : exn :=
  RuntimeError ("Conversion failed: " +:+ excerpt).

(** ** The Converter as the specification words it

    The outcome of the external process and the state of the output path
    decide the result: [ToolMissing] when the command cannot be started,
    [ToolFailed] with the end of the error stream when it exits non-zero,
    [EmptyOutput] when it exits with zero and the output is absent or of
    length zero, success otherwise. An exception of the spawn that is not
    a missing command is let through. *)
Definition classify_conversion (env : Env) (o : run_outcome)
    (f : gmap string node) (epub_path : string) : exn + unit :=
  match o with
  | RunFileNotFound => inl ToolMissing
  | RunRaised e => inl e
  | RunCompleted rc _ err =>
      if decide (rc = 0) then
        match size_on_disk env f epub_path with
        | None => inl EmptyOutput
        | Some sz => if decide (sz = 0) then inl EmptyOutput else inr tt
        end
      else inl (ToolFailed (PyStr.tail 2000 (bytes_decode env err)))
  end.

(** ** The Request Orchestrator as the specification words it *)

Definition detail_body (d : string) : body := JsonBody [("detail", JStr d)].

Definition authorized (cfg : Config) (req : ConvertRequest) : Prop :=
  authorize_spec (BEARER_TOKEN cfg) (authorization req) = inr tt.

(** Stage [Validated]: credential, content type and size were accepted. *)
Definition validated (cfg : Config) (req : ConvertRequest) : Prop :=
  authorized cfg req /\
  accepted_content_type (content_type req) = true /\
  Z.of_nat (length (raw req)) <= MAX_PDF_BYTES cfg.

(** Stage [WorkspaceAcquired]: the directory [td] was created and the
    upload written to [td/input.pdf]; [w3] is the world at that point. *)
Definition workspace_ready (cfg : Config) (env : Env) (req : ConvertRequest)
    (w : World) (td : string) (w3 : World) : Prop :=
  validated cfg req /\
  tmp_create env (events w ++ [EvReadUpload]) = inr td /\
  fs_write env (events w ++ [EvReadUpload; EvMkdtemp td])
    (PyPath.join td "input.pdf") = None /\
  w3 = {| fs := <[PyPath.join td "input.pdf" := File (raw req)]>
                  (<[td := Dir]> (fs w));
          outbox := outbox w;
          events := events w ++ [EvReadUpload; EvMkdtemp td;
                                 EvWriteBytes (PyPath.join td "input.pdf")] |}.

(** The environment failed while the workspace was set up. *)
Definition workspace_failed (cfg : Config) (env : Env) (req : ConvertRequest)
    (w : World) (e : exn) : Prop :=
  validated cfg req /\
  (tmp_create env (events w ++ [EvReadUpload]) = inl e \/
   exists td,
     tmp_create env (events w ++ [EvReadUpload]) = inr td /\
     fs_write env (events w ++ [EvReadUpload; EvMkdtemp td])
       (PyPath.join td "input.pdf") = Some e).

(** The response table of [POST /convert], one rule per outcome. *)
Inductive convert_response (cfg : Config) (env : Env) (req : ConvertRequest)
    (w : World) : Response -> Prop :=
| Resp401 :
    authorize_spec (BEARER_TOKEN cfg) (authorization req) = inl Unauthorized ->
    convert_response cfg env req w
      {| status := 401; content := detail_body "Missing bearer token" |}
| Resp403 :
    authorize_spec (BEARER_TOKEN cfg) (authorization req) = inl Forbidden ->
    convert_response cfg env req w
      {| status := 403; content := detail_body "Invalid bearer token" |}
| Resp400 :
    authorized cfg req ->
    accepted_content_type (content_type req) = false ->
    convert_response cfg env req w
      {| status := 400;
         content := detail_body ("Expected PDF, got " +:+ fmt_opt (content_type req)) |}
| Resp413 :
    authorized cfg req ->
    accepted_content_type (content_type req) = true ->
    Z.of_nat (length (raw req)) > MAX_PDF_BYTES cfg ->
    convert_response cfg env req w
      {| status := 413; content := detail_body "PDF too large" |}
| Resp500 td w3 e w4 :
    workspace_ready cfg env req w td w3 ->
    pdf_to_epub cfg env (PyPath.join td "input.pdf")
      (PyPath.join td "output.epub") w3 = (inl e, w4) ->
    convert_response cfg env req w
      {| status := 500; content := detail_body (str_exn e) |}
| Resp502 td w3 w4 e w5 :
    workspace_ready cfg env req w td w3 ->
    pdf_to_epub cfg env (PyPath.join td "input.pdf")
      (PyPath.join td "output.epub") w3 = (inr tt, w4) ->
    send_email_with_attachment cfg env "Your converted EPUB"
      "Attached is the EPUB converted from your PDF." (KINDLE_EMAIL cfg)
      (PyPath.join td "output.epub") w4 = (inl e, w5) ->
    convert_response cfg env req w
      {| status := 502; content := detail_body (str_exn e) |}
| Resp200 td w3 w4 w5 :
    workspace_ready cfg env req w td w3 ->
    pdf_to_epub cfg env (PyPath.join td "input.pdf")
      (PyPath.join td "output.epub") w3 = (inr tt, w4) ->
    send_email_with_attachment cfg env "Your converted EPUB"
      "Attached is the EPUB converted from your PDF." (KINDLE_EMAIL cfg)
      (PyPath.join td "output.epub") w4 = (inr tt, w5) ->
    convert_response cfg env req w
      {| status := 200;
         content := JsonBody [("ok", JBool true);
                              ("sent_to", JStr (KINDLE_EMAIL cfg))] |}
| RespUnexpected e :
    workspace_failed cfg env req w e ->
    convert_response cfg env req w (http_response (inl e)).

(** ** Vocabulary for further properties *)

(** A string of whitespace only *)
Fixpoint blank (s : string) : bool :=
  match s with
  | EmptyString => true
  | String c s' => PyStr.isspace c && blank s'
  end.

Definition is_quit (e : event) : bool :=
  match e with EvQuit => true | _ => false end.

Definition is_run (e : event) : bool :=
  match e with EvRun _ => true | _ => false end.

(** Calls that carry the account's password or the message itself *)
Definition is_login_or_send (e : event) : bool :=
  match e with EvLogin _ _ | EvSendMessage _ => true | _ => false end.

(** The one message [POST /convert] delivers for an output of bytes [data] *)
Definition converted_message (cfg : Config) (data : list byte) : EmailMessage :=
  {| msg_From := SMTP_FROM cfg;
     msg_To := KINDLE_EMAIL cfg;
     msg_Subject := "Your converted EPUB";
     msg_content := "Attached is the EPUB converted from your PDF.";
     msg_attachment :=
       Some {| att_data := data;
               att_maintype := "application";
               att_subtype := "epub+zip";
               att_filename := "output.epub" |} |}.

(** ** The settings, as the module reads them at start-up

    [os.environ] after [load_dotenv()] is a finite map [environ];
    [int(...)] on a [str] is a parameter [py_int] of the loader, which is
    handed back the exception it raises. *)

Module PyConfig.

(** [c.lower()] for one character below U+0100: A to Z, and the accented
    capitals U+00C0 to U+00DE without the multiplication sign *)
Definition lower_char (c : ascii) : ascii :=
  let n := N_of_ascii c in
  if ((65 <=? n) && (n <=? 90))%N
     || ((192 <=? n) && (n <=? 222) && negb (n =? 215))%N
  then ascii_of_N (n + 32)
  else c.

(** [s.lower()] *)
Fixpoint lower (s : string) : string :=
  match s with
  | EmptyString => EmptyString
  | String c s' => String (lower_char c) (lower s')
  end.

(** [os.environ.get(key, default)] *)
Definition environ_get (environ : gmap string string) (key default_ : string)
  : string :=
  match environ !! key with
  | Some v => v
  | None => default_
  end.

(** [a or b] on strings *)
Definition str_or (a b : string) : string :=
  if PyStr.truthy a then a else b.

(** [value.lower() in ("1", "true", "yes")] *)
Definition tls_flag (value : string) : bool :=
  bool_decide (lower value = "1")
  || bool_decide (lower value = "true")
  || bool_decide (lower value = "yes").

(** The assignments of lines 30 to 41, in their order; the two [int(...)]
    are the only ones that can raise. *)
Definition load_config (py_int : string -> exn + Z)
    (environ : gmap string string) : exn + Config :=
  let bearer := environ_get environ "BEARER_TOKEN" "change-me" in
  let kindle := environ_get environ "KINDLE_EMAIL" "change-me" in
  let host := environ_get environ "SMTP_HOST" EmptyString in
  match py_int (environ_get environ "SMTP_PORT" "587") with
  | inl e => inl e
  | inr port =>
      let user := environ_get environ "SMTP_USER" EmptyString in
      let pass := environ_get environ "SMTP_PASS" EmptyString in
      let from := environ_get environ "SMTP_FROM"
                    (str_or user "noreply@example.com") in
      let tls := tls_flag (environ_get environ "SMTP_TLS" "true") in
      let bin := environ_get environ "EBOOK_CONVERT_BIN" "ebook-convert" in
      match py_int (environ_get environ "MAX_PDF_BYTES"
                      (pretty (25 * 1024 * 1024))) with
      | inl e => inl e
      | inr max_bytes =>
          inr {| BEARER_TOKEN := bearer;
                 KINDLE_EMAIL := kindle;
                 SMTP_HOST := host;
                 SMTP_PORT := port;
                 SMTP_USER := user;
                 SMTP_PASS := pass;
                 SMTP_FROM := from;
                 SMTP_TLS := tls;
                 EBOOK_CONVERT_BIN := bin;
                 MAX_PDF_BYTES := max_bytes |}
      end
  end.

(** The capital of a small ASCII letter, any other character itself *)
Definition capital (c : ascii) : ascii :=
  let n := N_of_ascii c in
  if ((97 <=? n) && (n <=? 122))%N then ascii_of_N (n - 32) else c.

(** [value] is [word] with each letter in either case *)
Fixpoint spells (word value : string) : Prop :=
  match word, value with
  | EmptyString, EmptyString => True
  | String a word', String b value' =>
      (b = a \/ b = capital a) /\ spells word' value'
  | _, _ => False
  end.

(** An [int] for examples: unsigned decimal digits only *)
Fixpoint digits_value (acc : Z) (s : string) : option Z :=
  match s with
  | EmptyString => Some acc
  | String c s' =>
      let n := N_of_ascii c in
      if ((48 <=? n) && (n <=? 57))%N
      then digits_value (10 * acc + Z.of_N (n - 48)) s'
      else None
  end.

Definition demo_int (s : string) : exn + Z :=
  match s with
  | EmptyString => inl (OtherException "invalid literal for int() with base 10: ''")
  | _ => match digits_value 0 s with
         | Some z => inr z
         | None => inl (OtherException "invalid literal for int() with base 10")
         end
  end.

End PyConfig.

(** ** Building a message and handing it over *)

Fixpoint first_error (l : list (option exn)) : option exn :=
  match l with
  | [] => None
  | Some e :: _ => Some e
  | None :: l' => first_error l'
  end.

(** What building the message [m] raises, if anything: the three headers
    in the order From, To, Subject, then the body, then the attachment. *)
Definition message_error (env : Env) (m : EmailMessage) : option exn :=
  first_error
    ([email_header env "From" (msg_From m);
      email_header env "To" (msg_To m);
      email_header env "Subject" (msg_Subject m);
      email_set_content env (msg_content m)]
     ++ match msg_attachment m with
        | Some a => [email_add_attachment env a]
        | None => []
        end).

(** What [send_email_with_attachment] makes of an exception of its
    session: the two [except] clauses of lines 147 to 152 *)
Definition email_failure (e : exn) : exn :=
  match e with
  | SMTPAuthenticationError _ =>
      RuntimeError
        "Email failed: SMTP authentication failed (check SMTP_USER/SMTP_PASS)"
  | _ => RuntimeError ("Email failed: " +:+ str_exn e)
  end.


(** ** Tactics for running the program symbolically *)

Tactic Notation "proj" := cbn [fs outbox events fst snd negb set_fs].
Tactic Notation "proj" "in" hyp(H) :=
  cbn [fs outbox events fst snd negb set_fs] in H.

Ltac unfold_m :=
  unfold bind, ret, raise, try_except, finally, with_exit, emit.

Ltac unfold_smtp :=
  unfold smtp_session, SMTP_open, SMTP_starttls, SMTP_login,
    SMTP_send_message, SMTP_exit.

(** Turn a [let]-bound run [r] into a variable with its defining equation,
    to be unfolded step by step. *)
Ltac name_run r H :=
  pose proof (eq_refl r) as H; unfold r at 2 in H; clearbody r.

(** Close a goal [events w' = events w ++ ?l] after a run. *)
Ltac trace_eq := proj; rewrite <- ?app_assoc; reflexivity.

(** Close the goal of one finished path through a session. *)
Ltac session_done :=
  split; [reflexivity|]; eexists; split; [trace_eq|];
  split; [by auto|]; split; [by eexists |].

(** Split on every answer of the server that the goal still depends on. *)
Ltac server_answers env :=
  repeat (match goal with
          | |- context [smtp_starttls env ?h] =>
              destruct (smtp_starttls env h) as [?|] eqn:?; proj
          | |- context [smtp_login env ?h ?u ?p] =>
              destruct (smtp_login env h u p) as [?|] eqn:?; proj
          | |- context [smtp_send_message env ?h ?m] =>
              destruct (smtp_send_message env h m) as [?|] eqn:?; proj
          | |- context [smtp_quit env ?h] =>
              destruct (smtp_quit env h) as [?|] eqn:?; proj
          end).

(** ** Properties of the string operations *)

Section Strings.

Lemma startswith_app (p s : string) :
  PyStr.startswith p s = true <-> exists r, s = p +:+ r.
Proof.
  revert s. induction p as [|a p IH]; intros s; simpl.
  - split; [eauto | done].
  - destruct s as [|b s].
    + split; [done | intros [r Hr]; discriminate].
    + destruct (decide (a = b)) as [->|Hne].
      * rewrite IH. split; intros [r Hr]; exists r.
        -- simpl. by rewrite Hr.
        -- simpl in Hr. by injection Hr.
      * split; [done | intros [r Hr]; by injection Hr].
Qed.

Lemma split1_bearer (r : string) :
  PyStr.split1 " " ("Bearer " +:+ r) = ["Bearer"; r].
Proof. reflexivity. Qed.

Lemma drop_bearer (r : string) : PyStr.drop 7 ("Bearer " +:+ r) = r.
Proof. reflexivity. Qed.

Lemma truthy_false (s : string) : PyStr.truthy s = false <-> s = EmptyString.
Proof. destruct s; simpl; split; congruence. Qed.

Lemma length_drop (k : nat) (s : string) :
  String.length (PyStr.drop k s) = (String.length s - k)%nat.
Proof.
  revert s; induction k as [|k IH]; intros [|c s]; simpl; try lia.
  apply IH.
Qed.

Lemma drop_suffix (k : nat) (s : string) :
  exists p, s = p +:+ PyStr.drop k s.
Proof.
  revert s; induction k as [|k IH]; intros s.
  - by exists EmptyString.
  - destruct s as [|c s]; [by exists EmptyString|].
    destruct (IH s) as [p Hp]. exists (String c p).
    change (String c s = String c (p +:+ PyStr.drop k s)). by f_equal.
Qed.

(** [s[-n:]] has at most [n] characters, ... *)
Lemma length_tail (n : nat) (s : string) :
  (String.length (PyStr.tail n s) <= n)%nat.
Proof. unfold PyStr.tail. rewrite length_drop. lia. Qed.

(** ... exactly [min n (len s)] of them, ... *)
Lemma length_tail_min (n : nat) (s : string) :
  String.length (PyStr.tail n s) = Nat.min n (String.length s).
Proof. unfold PyStr.tail. rewrite length_drop. lia. Qed.

(** ... and they are the end of [s]. *)
Lemma tail_suffix (n : nat) (s : string) :
  exists p, s = p +:+ PyStr.tail n s.
Proof. apply drop_suffix. Qed.

End Strings.

(** ** Histories *)

Section Histories.
Context {A : Type}.

Lemma snoc2 (l : list A) (a b : A) : l ++ [a; b] = (l ++ [a]) ++ [b].
Proof. by rewrite <- app_assoc. Qed.

Lemma snoc3 (l : list A) (a b c : A) :
  l ++ [a; b; c] = ((l ++ [a]) ++ [b]) ++ [c].
Proof. by rewrite <- !app_assoc. Qed.

Lemma snoc4 (l : list A) (a b c d : A) :
  l ++ [a; b; c; d] = (((l ++ [a]) ++ [b]) ++ [c]) ++ [d].
Proof. by rewrite <- !app_assoc. Qed.

End Histories.

Section Occurrences.

Lemma occurrences_app (P : event -> bool) (l1 l2 : list event) :
  occurrences P (l1 ++ l2) = (occurrences P l1 + occurrences P l2)%nat.
Proof. unfold occurrences. by rewrite List.filter_app, length_app. Qed.

Lemma occurrences_cons (P : event -> bool) (e : event) (l : list event) :
  occurrences P (e :: l)
  = ((if P e then 1 else 0) + occurrences P l)%nat.
Proof. unfold occurrences. cbn. by destruct (P e). Qed.

Lemma occurrences_none (P : event -> bool) (l : list event) :
  Forall (fun e => P e = false) l -> occurrences P l = 0%nat.
Proof.
  induction 1 as [|e l He _ IH]; [done|].
  by rewrite occurrences_cons, He, IH.
Qed.

Lemma acquire_is_workspace (td : string) (e : event) :
  is_workspace_event e = false -> is_acquire td e = false.
Proof. by destruct e. Qed.

Lemma release_is_workspace (td : string) (e : event) :
  is_workspace_event e = false -> is_release td e = false.
Proof. by destruct e. Qed.

Lemma no_mkdtemp (td : string) (l : list event) :
  Forall (fun e => is_workspace_event e = false) l -> ~ In (EvMkdtemp td) l.
Proof.
  intros H Hin. rewrite Forall_forall in H.
  apply list_elem_of_In in Hin. by apply H in Hin.
Qed.

End Occurrences.

(** ** The Authorizer *)

Section Authorizer.
Context (cfg : Config) (env : Env).

(** The handler's check computes the specification's verdict and leaves
    the world as it was. *)
Lemma require_bearer_spec (h : option string) (w : World) :
  require_bearer cfg h w = (authorize_spec (BEARER_TOKEN cfg) h, w).
Proof.
  destruct h as [a|]; [|done].
  unfold require_bearer, authorize_spec.
  destruct (PyStr.startswith "Bearer " a) eqn:Hs.
  - apply startswith_app in Hs as [r ->].
    change (PyStr.truthy ("Bearer " +:+ r)) with true. cbn [negb].
    rewrite split1_bearer. cbn [lookup list_lookup].
    unfold header_token. rewrite drop_bearer.
    destruct (PyStr.truthy (PyStr.strip r)) eqn:Hr; cbn [negb].
    + rewrite (bool_decide_eq_false_2 (PyStr.strip r = EmptyString))
        by (intros E; apply truthy_false in E; congruence).
      by case_bool_decide.
    + apply truthy_false in Hr. by rewrite bool_decide_eq_true_2.
  - by destruct (PyStr.truthy a).
Qed.

End Authorizer.

(** C2. [require_bearer] fails with 401 exactly when the header is absent,
    does not begin with ["Bearer "], or has an empty token after trimming;
    it fails with 403 exactly when a well-formed token differs from the
    configured secret; it succeeds exactly when a well-formed token equals
    the secret; it never changes the world, and it fails in no other way. *)
Theorem require_bearer_verdict (cfg : Config) (h : option string) (w : World) :
  let r := require_bearer cfg h w in
  (r.1 = inl Unauthorized <->
     h = None \/
     exists a, h = Some a /\
       (PyStr.startswith "Bearer " a = false \/ header_token a = EmptyString)) /\
  (r.1 = inl Forbidden <->
     exists a, h = Some a /\ well_formed a /\ header_token a <> BEARER_TOKEN cfg) /\
  (r.1 = inr tt <->
     exists a, h = Some a /\ well_formed a /\ header_token a = BEARER_TOKEN cfg) /\
  r.2 = w /\
  (forall e, r.1 = inl e -> e = Unauthorized \/ e = Forbidden).
Proof.
  cbv zeta. rewrite require_bearer_spec. cbn [fst snd].
  unfold authorize_spec, well_formed, Unauthorized, Forbidden.
  destruct h as [a|].
  - assert (Hinv : forall (P : string -> Prop),
               (exists a', Some a = Some a' /\ P a') <-> P a).
    { intros P; split; [intros (a' & [= <-] & HP); exact HP | eauto]. }
    rewrite !Hinv.
    destruct (PyStr.startswith "Bearer " a) eqn:Hs;
      [destruct (bool_decide_reflect (header_token a = EmptyString)) as [He|He];
       [|destruct (bool_decide_reflect (header_token a = BEARER_TOKEN cfg))
           as [Hk|Hk]]|];
      (repeat split; try (intros e [= <-]); intuition congruence).
  - repeat split; try (intros e [= <-]); try tauto; try congruence;
      intros (a' & [=] & _).
Qed.

(** ** Histories of a run *)

Lemma new_events_app (w w' : World) (l : list event) :
  events w' = events w ++ l -> new_events w w' = l.
Proof. intros H. unfold new_events. rewrite H. apply drop_app_length. Qed.

Lemma new_events_refl (w : World) : new_events w w = [].
Proof. apply new_events_app. by rewrite app_nil_r. Qed.

(** ** The Converter *)

Section Converter.
Context (cfg : Config) (env : Env).

(** One run of [pdf_to_epub]: the command is called once, the world is
    what the process left, and the result is the classification of the
    specification. *)
Lemma pdf_to_epub_run (pdf_path epub_path : string) (w : World) :
  let cmd := [EBOOK_CONVERT_BIN cfg; pdf_path; epub_path] in
  let o := proc_run env (events w) cmd (fs w) in
  pdf_to_epub cfg env pdf_path epub_path w =
    (classify_conversion env o.1 o.2 epub_path,
     {| fs := o.2; outbox := outbox w; events := events w ++ [EvRun cmd] |}).
Proof.
  cbv zeta. unfold pdf_to_epub, subprocess_run, classify_conversion.
  unfold bind at 1.
  destruct (proc_run env _ _ _) as [[|e|rc out err] f]; proj; try done.
  destruct (decide (rc = 0)) as [->|Hrc]; [|done].
  unfold_m. unfold path_exists, stat_st_size, size_on_disk. proj.
  destruct (f !! epub_path) as [[|d]|] eqn:Hf.
  - rewrite bool_decide_eq_true_2 by eauto. proj.
    rewrite Hf. destruct (Z.eqb_spec (dir_st_size env) 0) as [E|E];
      destruct (decide (dir_st_size env = 0)); done.
  - rewrite bool_decide_eq_true_2 by eauto. proj.
    rewrite Hf. destruct (Z.eqb_spec (Z.of_nat (length d)) 0) as [E|E];
      destruct (decide (Z.of_nat (length d) = 0)); done.
  - rewrite bool_decide_eq_false_2 by (intros [? ?]; done). done.
Qed.

End Converter.

(** ** The Mail Dispatcher *)

Section MailDispatcher.
Context (cfg : Config) (env : Env).

(** One session: what it leaves in the world and in which order it
    talks to the server. *)
Lemma smtp_session_run (msg : EmailMessage) (w : World) :
  let r := smtp_session cfg env msg w in
  fs r.2 = fs w /\
  exists l,
    events r.2 = events w ++ l /\
    Forall (fun e => is_network e = true) l /\
    List.filter is_session_step l `prefix_of` session_script cfg msg /\
    match r.1 with
    | inr _ => l = session_script cfg msg ++ [EvQuit]
               /\ outbox r.2 = outbox w ++ [msg]
    | inl e => outbox r.2 = outbox w \/
               (outbox r.2 = outbox w ++ [msg] /\
                l = session_script cfg msg ++ [EvQuit] /\
                smtp_quit env (events w ++ session_script cfg msg) = Some e)
    end.
Proof.
  cbv zeta. unfold session_script. unfold_smtp. unfold_m.
  assert (Hnet : forall l, forallb is_network l = true ->
                           Forall (fun e => is_network e = true) l).
  { intros l H. apply Forall_forall. intros e He.
    rewrite forallb_forall in H. by apply H, list_elem_of_In. }
  destruct (smtp_connect env _ _ _ _) as [e|]; proj;
    [session_done; by left|].
  destruct (SMTP_TLS cfg), (PyStr.truthy (SMTP_USER cfg));
    cbn [app]; rewrite ?snoc4, ?snoc3, ?snoc2; proj;
    server_answers env; session_done;
    first [done | by left | by right].
Qed.


(** One call of [send_email_with_attachment], stage by stage: the two
    checks, the read of the attachment, the building of the message, the
    session with its two [except] clauses. *)
Lemma send_email_unfold (subject body to_addr path : string) (w : World) :
  let r := send_email_with_attachment cfg env subject body to_addr path w in
  if negb (PyStr.truthy (SMTP_HOST cfg)) then
    r = (inl (RuntimeError "SMTP_HOST is not set"), w)
  else
    match fs w !! path with
    | None => r = (inl (RuntimeError "Attachment not found"), w)
    | Some Dir =>
        r = (inl (OtherException
                    ("[Errno 21] Is a directory: '" +:+ path +:+ "'")),
             logged (EvReadBytes path) w)
    | Some (File data) =>
        let w1 := logged (EvReadBytes path) w in
        let msg := attachment_message cfg subject body to_addr path data in
        match fs_read env (events w) path with
        | Some e => r = (inl e, w1)
        | None =>
            match message_error env msg with
            | Some e => r = (inl e, w1)
            | None =>
                let s := smtp_session cfg env msg w1 in
                r = (match s.1 with
                     | inr u => inr u
                     | inl e => inl (email_failure e)
                     end, s.2)
            end
        end
    end.
Proof.
  intros r. name_run r Hr. unfold send_email_with_attachment in Hr.
  destruct (PyStr.truthy (SMTP_HOST cfg)); proj in Hr; proj; [|done].
  unfold bind at 1, path_exists at 1 in Hr. proj in Hr.
  destruct (fs w !! path) as [nd|] eqn:Hp.
  2:{ by rewrite bool_decide_eq_false_2 in Hr by (intros [? ?]; done). }
  rewrite bool_decide_eq_true_2 in Hr by eauto. proj in Hr.
  unfold bind at 1, read_bytes at 1 in Hr. rewrite Hp in Hr.
  destruct nd as [|data]; [done|]. cbv zeta.
  destruct (fs_read env (events w) path) as [e|]; [done|].
  unfold message_error, attachment_message.
  cbn [first_error app msg_From msg_To msg_Subject msg_content msg_attachment].
  unfold bind at 1, set_header at 1 in Hr.
  destruct (email_header env "From" _) as [e|]; [done|].
  unfold bind at 1, set_header at 1 in Hr.
  destruct (email_header env "To" _) as [e|]; [done|].
  unfold bind at 1, set_header at 1 in Hr.
  destruct (email_header env "Subject" _) as [e|]; [done|].
  unfold bind at 1, set_content at 1 in Hr.
  destruct (email_set_content env _) as [e|]; [done|].
  unfold bind at 1, add_attachment at 1 in Hr.
  destruct (email_add_attachment env _) as [e|]; [done|].
  unfold try_except in Hr. unfold logged.
  destruct (smtp_session cfg env _ _) as [[e|[]] w2]; proj; [|done].
  rewrite Hr. by destruct e.
Qed.

(** One call of [send_email_with_attachment]: the two checks come first
    and leave the world alone; then the file is read; then the session. *)
Lemma send_email_run (subject body to_addr path : string) (w : World) :
  let r := send_email_with_attachment cfg env subject body to_addr path w in
  fs r.2 = fs w /\
  if negb (PyStr.truthy (SMTP_HOST cfg)) then
    r = (inl (RuntimeError "SMTP_HOST is not set"), w)
  else
    match fs w !! path with
    | None => r = (inl (RuntimeError "Attachment not found"), w)
    | Some nd =>
        exists l,
          events r.2 = events w ++ EvReadBytes path :: l /\
          Forall (fun e => is_network e = true) l /\
          match nd with
          | Dir => l = [] /\ outbox r.2 = outbox w /\ exists e, r.1 = inl e
          | File data =>
              let msg := attachment_message cfg subject body to_addr path data in
              List.filter is_session_step l `prefix_of` session_script cfg msg /\
              match r.1 with
              | inr _ => l = session_script cfg msg ++ [EvQuit]
                         /\ outbox r.2 = outbox w ++ [msg]
              | inl _ => outbox r.2 = outbox w \/
                         (outbox r.2 = outbox w ++ [msg] /\
                          l = session_script cfg msg ++ [EvQuit])
              end
          end
    end.
Proof.
  intros r. pose proof (send_email_unfold subject body to_addr path w) as H.
  cbv zeta in H. fold r in H.
  destruct (negb (PyStr.truthy (SMTP_HOST cfg))); [by rewrite H|].
  destruct (fs w !! path) as [[|data]|]; [| |by rewrite H].
  { rewrite H. proj. split; [done|]. exists []. eauto 10. }
  assert (Hstop : forall e,
            r = (inl e, logged (EvReadBytes path) w) ->
            fs r.2 = fs w /\
            exists l,
              events r.2 = events w ++ EvReadBytes path :: l /\
              Forall (fun e => is_network e = true) l /\
              List.filter is_session_step l `prefix_of`
                session_script cfg
                  (attachment_message cfg subject body to_addr path data) /\
              match r.1 with
              | inr _ =>
                  l = session_script cfg
                        (attachment_message cfg subject body to_addr path data)
                      ++ [EvQuit] /\
                  outbox r.2 = outbox w ++
                    [attachment_message cfg subject body to_addr path data]
              | inl _ =>
                  outbox r.2 = outbox w \/
                  (outbox r.2 = outbox w ++
                     [attachment_message cfg subject body to_addr path data] /\
                   l = session_script cfg
                         (attachment_message cfg subject body to_addr path data)
                       ++ [EvQuit])
              end).
  { intros e ->. proj. split; [done|]. exists [].
    split_and!; [done|done|apply prefix_nil|by left]. }
  destruct (fs_read env (events w) path) as [e|]; [by eapply Hstop|].
  destruct (message_error env _) as [e|]; [by eapply Hstop|].
  clear Hstop.
  destruct (smtp_session_run
              (attachment_message cfg subject body to_addr path data)
              (logged (EvReadBytes path) w)) as (Hfs & l & Hev & Hnet & Hpre & Hout).
  unfold logged in Hfs, Hev, Hout. proj in Hfs. proj in Hev. proj in Hout.
  unfold logged in H. rewrite H. proj. split; [done|]. exists l.
  split_and!; [by rewrite Hev, <- app_assoc|done|done|].
  destruct (smtp_session cfg env _ _).1 as [e|u]; [|done].
  destruct Hout as [?|(? & ? & _)]; auto.
Qed.

(** What a call can have delivered: nothing, or the one message. *)
Lemma send_email_outbox (subject body to_addr path : string) (w : World) :
  let r := send_email_with_attachment cfg env subject body to_addr path w in
  outbox r.2 = outbox w \/
  exists data,
    fs w !! path = Some (File data) /\
    outbox r.2 =
      outbox w ++ [attachment_message cfg subject body to_addr path data].
Proof.
  intros r. destruct (send_email_run subject body to_addr path w) as [_ H].
  fold r in H.
  destruct (negb (PyStr.truthy (SMTP_HOST cfg))); [left; by rewrite H|].
  destruct (fs w !! path) as [[|data]|]; [| |left; by rewrite H].
  - destruct H as (l & _ & _ & _ & ? & _). by left.
  - destruct H as (l & _ & _ & _ & H).
    destruct r.1 as [e|u].
    + destruct H as [?|[? _]]; [by left|right; eauto].
    + destruct H as [_ ?]. right; eauto.
Qed.

(** What a call leaves in the outbox, by its outcome. A call that raises
    has delivered nothing, unless the server took the message and then
    refused QUIT. *)
Lemma send_email_cases (subject body to_addr path : string) (w : World) :
  let r := send_email_with_attachment cfg env subject body to_addr path w in
  fs r.2 = fs w /\
  match r.1 with
  | inr _ =>
      exists data,
        fs w !! path = Some (File data) /\
        outbox r.2 =
          outbox w ++ [attachment_message cfg subject body to_addr path data]
  | inl e =>
      outbox r.2 = outbox w \/
      exists data q,
        fs w !! path = Some (File data) /\
        outbox r.2 =
          outbox w ++ [attachment_message cfg subject body to_addr path data] /\
        new_events w r.2 =
          EvReadBytes path ::
          session_script cfg
            (attachment_message cfg subject body to_addr path data)
          ++ [EvQuit] /\
        smtp_quit env
          ((events w ++ [EvReadBytes path]) ++
           session_script cfg
             (attachment_message cfg subject body to_addr path data)) = Some q /\
        e = email_failure q
  end.
Proof.
  intros r. pose proof (send_email_unfold subject body to_addr path w) as H.
  cbv zeta in H. fold r in H. unfold logged in H.
  destruct (negb (PyStr.truthy (SMTP_HOST cfg))); [rewrite H; proj; auto|].
  destruct (fs w !! path) as [[|data]|];
    [rewrite H; proj; auto| |rewrite H; proj; auto].
  destruct (fs_read env (events w) path) as [e|]; [rewrite H; proj; auto|].
  destruct (message_error env _) as [e|]; [rewrite H; proj; auto|].
  destruct (smtp_session_run
              (attachment_message cfg subject body to_addr path data)
              (logged (EvReadBytes path) w)) as (Hfs & l & Hev & _ & _ & Hout).
  unfold logged in Hfs, Hev, Hout. proj in Hfs. proj in Hev. proj in Hout.
  rewrite H. proj. split; [done|].
  destruct (smtp_session cfg env _ _).1 as [e|u].
  - destruct Hout as [?|(Ho & -> & Hq)]; [by left|]. right.
    exists data, e. split_and!; [done|done| |done|done].
    apply new_events_app. rewrite Hev. by rewrite <- app_assoc.
  - destruct Hout as [-> Ho]. eauto.
Qed.


Lemma network_not_workspace (e : event) :
  is_network e = true -> is_workspace_event e = false.
Proof. by destruct e. Qed.

(** A call of [send_email_with_attachment] keeps the filesystem and
    creates or removes no directory. *)
Lemma send_email_frame (subject body to_addr path : string) (w : World) :
  let r := send_email_with_attachment cfg env subject body to_addr path w in
  fs r.2 = fs w /\
  exists l, events r.2 = events w ++ l /\
            Forall (fun e => is_workspace_event e = false) l.
Proof.
  intros r.
  destruct (send_email_run subject body to_addr path w) as [Hfs H].
  fold r in Hfs, H. split; [done|].
  destruct (negb (PyStr.truthy (SMTP_HOST cfg))).
  { rewrite H. exists []. by rewrite app_nil_r. }
  destruct (fs w !! path) as [nd|].
  2:{ rewrite H. exists []. by rewrite app_nil_r. }
  destruct H as (l & Hev & Hnet & _). exists (EvReadBytes path :: l).
  split; [done|]. constructor; [done|].
  eapply Forall_impl; [exact Hnet|]. apply network_not_workspace.
Qed.

End MailDispatcher.

(** ** The Request Orchestrator *)

Section Orchestrator.
Context (cfg : Config) (env : Env).

(** The stages of [POST /convert], each with the world it leaves. *)
Lemma convert_run (req : ConvertRequest) (w : World) :
  let r := convert_pdf_to_epub_endpoint cfg env req w in
  match authorize_spec (BEARER_TOKEN cfg) (authorization req) with
  | inl e => r = (inl e, w)
  | inr _ =>
      if accepted_content_type (content_type req) then
        let w1 := logged EvReadUpload w in
        if Z.of_nat (length (raw req)) >? MAX_PDF_BYTES cfg then
          r = (inl (HTTPException 413 "PDF too large"), w1)
        else
          match tmp_create env (events w1) with
          | inl e => r = (inl e, w1)
          | inr td =>
              let w2 := set_fs (<[td := Dir]> (fs w1)) (logged (EvMkdtemp td) w1) in
              let pdf := PyPath.join td "input.pdf" in
              let epub := PyPath.join td "output.epub" in
              match fs_write env (events w2) pdf with
              | Some e =>
                  r = (inl e, TemporaryDirectory_cleanup td
                                (logged (EvWriteBytes pdf) w2))
              | None =>
                  let w3 := set_fs (<[pdf := File (raw req)]> (fs w2))
                              (logged (EvWriteBytes pdf) w2) in
                  let c := pdf_to_epub cfg env pdf epub w3 in
                  match c.1 with
                  | inl e =>
                      r = (inl (HTTPException 500 (str_exn e)),
                           TemporaryDirectory_cleanup td c.2)
                  | inr _ =>
                      let d := send_email_with_attachment cfg env
                                 "Your converted EPUB"
                                 "Attached is the EPUB converted from your PDF."
                                 (KINDLE_EMAIL cfg) epub c.2 in
                      match d.1 with
                      | inl e =>
                          r = (inl (HTTPException 502 (str_exn e)),
                               TemporaryDirectory_cleanup td d.2)
                      | inr _ =>
                          r = (inr [("ok", JBool true);
                                    ("sent_to", JStr (KINDLE_EMAIL cfg))],
                               TemporaryDirectory_cleanup td d.2)
                      end
                  end
              end
          end
      else
        r = (inl (HTTPException 400
                    ("Expected PDF, got " +:+ fmt_opt (content_type req))), w)
  end.
Proof.
  intros r. name_run r Hr. unfold convert_pdf_to_epub_endpoint in Hr.
  unfold bind at 1 in Hr. rewrite require_bearer_spec in Hr.
  destruct (authorize_spec _ _) as [e|[]]; [done|].
  unfold bind at 1 in Hr.
  destruct (accepted_content_type (content_type req)); proj in Hr; [|done].
  unfold ret at 1 in Hr. unfold bind at 1 in Hr.
  unfold read_upload, emit in Hr. unfold bind at 1, ret at 1 in Hr.
  unfold bind at 1 in Hr. cbv zeta.
  destruct (Z.of_nat (length (raw req)) >? MAX_PDF_BYTES cfg); [done|].
  unfold ret at 1 in Hr. unfold bind at 1 in Hr.
  unfold with_TemporaryDirectory, TemporaryDirectory_enter in Hr.
  unfold bind at 1 in Hr. unfold logged at 1. proj.
  destruct (tmp_create env _) as [e|td]; [done|].
  unfold finally, bind at 1, write_bytes in Hr. proj in Hr.
  unfold logged at 1, set_fs at 1. proj.
  destruct (fs_write env _ _) as [e|]; [done|].
  unfold bind at 1, try_except at 1 in Hr.
  match type of Hr with
  | context [pdf_to_epub cfg env ?a ?b ?w3] =>
      change (pdf_to_epub cfg env _ _ _) with (pdf_to_epub cfg env a b w3);
      destruct (pdf_to_epub cfg env a b w3) as [[e|[]] w4]
  end; proj; proj in Hr; [done|].
  unfold try_except in Hr.
  destruct (send_email_with_attachment cfg env _ _ _ _ w4) as [[e|[]] w5];
    proj; done.
Qed.

(** Once the workspace is there, the handler's answer is decided by the
    conversion and the delivery, and the directory is removed after
    either. *)
Lemma convert_in_workspace (req : ConvertRequest) (w : World)
    (td : string) (w3 : World) :
  workspace_ready cfg env req w td w3 ->
  let epub := PyPath.join td "output.epub" in
  let c := pdf_to_epub cfg env (PyPath.join td "input.pdf") epub w3 in
  let d := send_email_with_attachment cfg env "Your converted EPUB"
             "Attached is the EPUB converted from your PDF."
             (KINDLE_EMAIL cfg) epub c.2 in
  convert_pdf_to_epub_endpoint cfg env req w =
    match c.1 with
    | inl e => (inl (HTTPException 500 (str_exn e)),
                TemporaryDirectory_cleanup td c.2)
    | inr _ =>
        match d.1 with
        | inl e => (inl (HTTPException 502 (str_exn e)),
                    TemporaryDirectory_cleanup td d.2)
        | inr _ => (inr [("ok", JBool true);
                         ("sent_to", JStr (KINDLE_EMAIL cfg))],
                    TemporaryDirectory_cleanup td d.2)
        end
    end.
Proof.
  intros ((Ha & Ht & Hs) & Htd & Hwr & ->). cbv zeta.
  pose proof (convert_run req w) as H. cbv zeta in H.
  unfold logged, set_fs in H. proj in H.
  unfold authorized in Ha. rewrite Ha, Ht in H.
  destruct (Z.gtb_spec (Z.of_nat (length (raw req))) (MAX_PDF_BYTES cfg));
    [lia|].
  rewrite snoc2 in Hwr. rewrite snoc3. rewrite Htd, Hwr in H.
  destruct (pdf_to_epub cfg env _ _ _) as [[e|[]] w4]; proj; proj in H;
    [done|].
  destruct (send_email_with_attachment cfg env _ _ _ _ w4) as [[e|[]] w5];
    proj; proj in H; done.
Qed.

Lemma cleanup_removes (td p : string) (w : World) :
  PyPath.within td p = true ->
  fs (TemporaryDirectory_cleanup td w) !! p = None.
Proof.
  intros Hp. unfold TemporaryDirectory_cleanup. proj.
  apply map_lookup_filter_None. right. intros x _. cbn. congruence.
Qed.

Lemma within_refl (td : string) : PyPath.within td td = true.
Proof. unfold PyPath.within. by rewrite bool_decide_eq_true_2. Qed.

Lemma within_join (td name : string) :
  PyPath.within td (PyPath.join td name) = true.
Proof.
  unfold PyPath.within, PyPath.join.
  assert (PyStr.startswith (td +:+ "/") (td +:+ "/" +:+ name) = true) as ->;
    [|apply orb_true_r].
  induction td as [|c td IH]; [done|].
  change (PyStr.startswith (String c (td +:+ "/"))
            (String c (td +:+ "/" +:+ name)) = true).
  cbn [PyStr.startswith]. by rewrite decide_True.
Qed.

(** The shape of the history of one request: either no directory was
    touched, or one was created right after the upload was read and
    removed as the last act. *)
Lemma convert_trace (req : ConvertRequest) (w : World) :
  let r := convert_pdf_to_epub_endpoint cfg env req w in
  let l := new_events w r.2 in
  (Forall (fun e => is_workspace_event e = false) l /\ fs r.2 = fs w) \/
  (exists td l2,
     l = EvReadUpload :: EvMkdtemp td :: l2 ++ [EvRmtree td] /\
     Forall (fun e => is_workspace_event e = false) l2 /\
     forall p, PyPath.within td p = true -> fs r.2 !! p = None).
Proof.
  intros r l. subst l.
  pose proof (convert_run req w) as H. cbv zeta in H. fold r in H.
  unfold logged, set_fs in H. proj in H.
  destruct (authorize_spec _ _) as [e|[]].
  { left. rewrite H. proj. by rewrite new_events_refl. }
  destruct (accepted_content_type _).
  2:{ left. rewrite H. proj. by rewrite new_events_refl. }
  destruct (Z.of_nat (length (raw req)) >? MAX_PDF_BYTES cfg).
  { left. rewrite H. proj.
    rewrite (new_events_app w _ [EvReadUpload]) by done. by repeat constructor. }
  destruct (tmp_create env _) as [e|td].
  { left. rewrite H. proj.
    rewrite (new_events_app w _ [EvReadUpload]) by done. by repeat constructor. }
  right. exists td.
  destruct (fs_write env _ _) as [e|].
  { exists [EvWriteBytes (PyPath.join td "input.pdf")]. rewrite H. proj.
    split_and!; [|by repeat constructor|intros; by apply cleanup_removes].
    apply new_events_app. unfold TemporaryDirectory_cleanup. proj.
    by rewrite <- !app_assoc. }
  match type of H with
  | context [pdf_to_epub cfg env ?a ?b ?w3] =>
      pose proof (pdf_to_epub_run cfg env a b w3) as Hc;
      destruct (pdf_to_epub cfg env a b w3) as [rc w4]
  end.
  cbv zeta in Hc. injection Hc as Hrc Hw4. proj in Hw4. proj in H.
  match type of H with
  | context [send_email_with_attachment cfg env ?a ?b ?c ?d w4] =>
      pose proof (send_email_frame cfg env a b c d w4) as (_ & lm & Hd & Hlm);
      destruct (send_email_with_attachment cfg env a b c d w4) as [rd w5]
  end.
  proj in Hd. proj in H.
  destruct rc as [e|[]].
  - exists [EvWriteBytes (PyPath.join td "input.pdf");
            EvRun [EBOOK_CONVERT_BIN cfg; PyPath.join td "input.pdf";
                   PyPath.join td "output.epub"]].
    rewrite H. proj.
    split_and!; [|by repeat constructor|intros; by apply cleanup_removes].
    apply new_events_app. unfold TemporaryDirectory_cleanup. proj.
    rewrite Hw4. proj. by rewrite <- !app_assoc.
  - exists (EvWriteBytes (PyPath.join td "input.pdf")
            :: EvRun [EBOOK_CONVERT_BIN cfg; PyPath.join td "input.pdf";
                      PyPath.join td "output.epub"] :: lm).
    assert (Hev : new_events w (TemporaryDirectory_cleanup td w5) =
                  EvReadUpload :: EvMkdtemp td ::
                    (EvWriteBytes (PyPath.join td "input.pdf")
                     :: EvRun [EBOOK_CONVERT_BIN cfg;
                               PyPath.join td "input.pdf";
                               PyPath.join td "output.epub"] :: lm)
                    ++ [EvRmtree td]).
    { apply new_events_app. unfold TemporaryDirectory_cleanup. proj.
      rewrite Hd, Hw4. proj. rewrite <- !app_assoc. reflexivity. }
    destruct rd as [e|[]]; rewrite H; proj;
      (split_and!; [done|by repeat constructor
                   |intros; by apply cleanup_removes]).
Qed.

(** The stages of [POST /test-email]. *)
Lemma test_email_run (h : option string) (w : World) :
  let r := test_email cfg env h w in
  match authorize_spec (BEARER_TOKEN cfg) h with
  | inl e => r = (inl e, w)
  | inr _ =>
      let p := send_email_with_attachment cfg env
                 "SMTP test (no attachment)"
                 "If you received this, SMTP is working."
                 (KINDLE_EMAIL cfg) "/dev/null" w in
      match p.1 with
      | inr _ => r = (inr [("ok", JBool true);
                           ("sent_to", JStr (KINDLE_EMAIL cfg))], p.2)
      | inl _ =>
          if negb (PyStr.truthy (SMTP_HOST cfg)) then
            r = (inl (HTTPException 502 "SMTP_HOST is not set"), p.2)
          else
            match message_error env (plain_test_message cfg) with
            | Some e => r = (inl (HTTPException 502 (str_exn e)), p.2)
            | None =>
                let q := smtp_session cfg env (plain_test_message cfg) p.2 in
                match q.1 with
                | inr _ => r = (inr [("ok", JBool true);
                                     ("sent_to", JStr (KINDLE_EMAIL cfg))], q.2)
                | inl e => r = (inl (HTTPException 502 (str_exn e)), q.2)
                end
            end
      end
  end.
Proof.
  intros r. name_run r Hr. unfold test_email in Hr.
  unfold bind at 1 in Hr. rewrite require_bearer_spec in Hr.
  destruct (authorize_spec _ _) as [e|[]]; [done|].
  unfold bind at 1, try_except at 1 in Hr. cbv zeta.
  destruct (send_email_with_attachment cfg env _ _ _ _ w) as [[e|[]] w1];
    proj; proj in Hr; [|done].
  unfold try_except, bind in Hr.
  destruct (PyStr.truthy (SMTP_HOST cfg)); proj; proj in Hr; [|done].
  unfold ret at 1 in Hr.
  unfold message_error, plain_test_message at 1 2 3 4 5.
  cbn [first_error app msg_From msg_To msg_Subject msg_content msg_attachment].
  unfold set_header, set_content in Hr.
  destruct (email_header env "From" _) as [e'|]; [done|].
  destruct (email_header env "To" _) as [e'|]; [done|].
  destruct (email_header env "Subject" _) as [e'|]; [done|].
  destruct (email_set_content env _) as [e'|]; [done|].
  destruct (smtp_session cfg env _ w1) as [[e'|[]] w2]; proj; done.
Qed.

End Orchestrator.

(** ** The claims about the Converter and the Mail Dispatcher *)

(** C8. In every call of [send_email_with_attachment] the steps come in one
    order: the mail-host check, which fails before anything else happens;
    the attachment check, which fails before any session is opened; then
    the connection, opened with a timeout of 30 seconds; STARTTLS when TLS
    is configured; LOGIN when a user name is configured; the message. No
    network call is made when either check fails. *)
Theorem send_email_ordering (cfg : Config) (env : Env)
    (subject body to_addr path : string) (w : World) :
  let r := send_email_with_attachment cfg env subject body to_addr path w in
  let l := new_events w r.2 in
  (SMTP_HOST cfg = EmptyString ->
     r = (inl (RuntimeError "SMTP_HOST is not set"), w) /\ l = []) /\
  (SMTP_HOST cfg <> EmptyString -> fs w !! path = None ->
     r = (inl (RuntimeError "Attachment not found"), w) /\ l = []) /\
  (forall e, In e l -> is_network e = true ->
     SMTP_HOST cfg <> EmptyString /\ is_Some (fs w !! path)) /\
  (exists data,
     List.filter is_session_step l `prefix_of`
       session_script cfg (attachment_message cfg subject body to_addr path data)) /\
  (r.1 = inr tt ->
     exists data,
       fs w !! path = Some (File data) /\
       l = EvReadBytes path
           :: session_script cfg (attachment_message cfg subject body to_addr path data)
           ++ [EvQuit]).
Proof.
  intros r l. subst l.
  pose proof (send_email_run cfg env subject body to_addr path w) as H.
  cbv zeta in H. fold r in H. destruct H as [_ H].
  destruct (PyStr.truthy (SMTP_HOST cfg)) eqn:Ht; cbn [negb] in H.
  - assert (Hh : SMTP_HOST cfg <> EmptyString)
      by (intros E; apply truthy_false in E; congruence).
    destruct (fs w !! path) as [nd|] eqn:Hp.
    + destruct H as (l & Hev & Hnet & H).
      rewrite (new_events_app _ _ _ Hev).
      split_and!; try done.
      * destruct nd as [|data]; [destruct H as (-> & _); exists []; apply prefix_nil|].
        exists data. by destruct H as [H _].
      * intros Hok. destruct nd as [|data].
        { destruct H as (_ & _ & e & He). congruence. }
        exists data. split; [done|]. destruct H as [_ H].
        rewrite Hok in H. by destruct H as [-> _].
    + rewrite H. proj. rewrite new_events_refl.
      split_and!; try done. exists []. apply prefix_nil.
  - apply truthy_false in Ht. rewrite H. proj. rewrite new_events_refl.
    split_and!; try done. exists []. apply prefix_nil.
Qed.

(** C4. [pdf_to_epub] returns normally only when the output path exists
    with a size other than zero; when the process exits with status 0 and
    the output is absent or of size zero, it raises the empty-output
    error; and with status 0 and a non-empty output it does return. *)
Theorem pdf_to_epub_output (cfg : Config) (env : Env)
    (pdf_path epub_path : string) (w : World) :
  let r := pdf_to_epub cfg env pdf_path epub_path w in
  let cmd := [EBOOK_CONVERT_BIN cfg; pdf_path; epub_path] in
  (r.1 = inr tt ->
     match fs r.2 !! epub_path with
     | Some (File d) => d <> []
     | Some Dir => dir_st_size env <> 0
     | None => False
     end) /\
  (forall out err f,
     proc_run env (events w) cmd (fs w) = (RunCompleted 0 out err, f) ->
     size_on_disk env f epub_path = None \/ size_on_disk env f epub_path = Some 0 ->
     r.1 = inl EmptyOutput) /\
  (forall out err f sz,
     proc_run env (events w) cmd (fs w) = (RunCompleted 0 out err, f) ->
     size_on_disk env f epub_path = Some sz -> sz <> 0 ->
     r.1 = inr tt).
Proof.
  intros r cmd. subst r cmd. rewrite pdf_to_epub_run. proj.
  destruct (proc_run env _ _ _) as [o f]. proj.
  unfold classify_conversion, size_on_disk. split_and!.
  - destruct o as [|e|rc out err]; [done|done|].
    destruct (decide (rc = 0)); [|done].
    destruct (f !! epub_path) as [[|d]|]; [| |done].
    + by destruct (decide (dir_st_size env = 0)).
    + destruct (decide (Z.of_nat (length d) = 0)); [done|].
      intros _ ->. done.
  - intros out err f0 [= -> <-] Hsz. cbn [decide_rel]. rewrite decide_True by done.
    destruct (f !! epub_path) as [[|d]|]; [| |done];
      (destruct Hsz as [[=]|[= ->]]; by rewrite decide_True).
  - intros out err f0 sz [= -> <-] Hsz Hnz. rewrite decide_True by done.
    destruct (f !! epub_path) as [[|d]|]; [| |done];
      injection Hsz as ->; by rewrite decide_False.
Qed.

(** ** The claims about [POST /convert] *)

(** C1. The response of [POST /convert] follows the table: 401 for a
    missing or malformed credential, 403 for a wrong one, 400 for an
    unsupported content type, 413 for an oversized payload, 500 with the
    error text when the conversion fails, 502 with the error text when the
    delivery fails, 200 with [{"ok": true, "sent_to": KINDLE_EMAIL}]
    otherwise; and the table gives every request exactly the response of
    the handler. *)
Theorem convert_response_table (cfg : Config) (env : Env)
    (req : ConvertRequest) (w : World) (resp : Response) :
  convert_response cfg env req w resp <->
  resp = http_response (convert_pdf_to_epub_endpoint cfg env req w).1.
Proof.
  pose proof (convert_run cfg env req w) as H. cbv zeta in H.
  unfold logged, set_fs in H. proj in H.
  split.
  - intros [Ha|Ha|Ha Ht|Ha Ht Hs
           |td w3 e w4 ((Ha & Ht & Hs) & Htd & Hwr & ->) Hc
           |td w3 w4 e w5 ((Ha & Ht & Hs) & Htd & Hwr & ->) Hc Hd
           |td w3 w4 w5 ((Ha & Ht & Hs) & Htd & Hwr & ->) Hc Hd
           |e ((Ha & Ht & Hs) & Hf)];
      unfold authorized in *; rewrite Ha in H.
    + by rewrite H.
    + by rewrite H.
    + rewrite Ht in H. by rewrite H.
    + rewrite Ht in H.
      destruct (Z.gtb_spec (Z.of_nat (length (raw req))) (MAX_PDF_BYTES cfg));
        [|lia]. by rewrite H.
    + rewrite snoc2 in Hwr. rewrite snoc3 in Hc.
      rewrite Ht in H.
      destruct (Z.gtb_spec (Z.of_nat (length (raw req))) (MAX_PDF_BYTES cfg));
        [lia|].
      rewrite Htd, Hwr, Hc in H. proj in H. by rewrite H.
    + rewrite snoc2 in Hwr. rewrite snoc3 in Hc.
      rewrite Ht in H.
      destruct (Z.gtb_spec (Z.of_nat (length (raw req))) (MAX_PDF_BYTES cfg));
        [lia|].
      rewrite Htd, Hwr, Hc in H. proj in H. rewrite Hd in H. proj in H.
      by rewrite H.
    + rewrite snoc2 in Hwr. rewrite snoc3 in Hc.
      rewrite Ht in H.
      destruct (Z.gtb_spec (Z.of_nat (length (raw req))) (MAX_PDF_BYTES cfg));
        [lia|].
      rewrite Htd, Hwr, Hc in H. proj in H. rewrite Hd in H. proj in H.
      by rewrite H.
    + rewrite Ht in H.
      destruct (Z.gtb_spec (Z.of_nat (length (raw req))) (MAX_PDF_BYTES cfg));
        [lia|].
      destruct Hf as [Htd|(td & Htd & Hwr)].
      * rewrite Htd in H. by rewrite H.
      * rewrite snoc2 in Hwr. rewrite Htd, Hwr in H. by rewrite H.
  - intros ->.
    destruct (authorize_spec (BEARER_TOKEN cfg) (authorization req))
      as [e|[]] eqn:Ha.
    { rewrite H. proj. unfold authorize_spec in Ha.
      assert (e = Unauthorized \/ e = Forbidden) as [->| ->].
      { destruct (authorization req) as [a|]; [|left; congruence].
        destruct (PyStr.startswith "Bearer " a); [|left; congruence].
        repeat case_bool_decide; try discriminate;
          [left|right]; congruence. }
      - by apply Resp401.
      - by apply Resp403. }
    destruct (accepted_content_type (content_type req)) eqn:Ht.
    2:{ rewrite H. by apply Resp400. }
    destruct (Z.gtb_spec (Z.of_nat (length (raw req))) (MAX_PDF_BYTES cfg))
      as [Hs|Hs].
    { rewrite H. apply Resp413; [done|done|lia]. }
    assert (Hv : validated cfg req) by done.
    destruct (tmp_create env _) as [e|td] eqn:Htd.
    { rewrite H. apply RespUnexpected. split; [done|]. by left. }
    destruct (fs_write env _ _) as [e|] eqn:Hwr.
    { rewrite H. apply RespUnexpected. split; [done|]. right.
      exists td. by rewrite snoc2. }
    match type of H with
    | context [pdf_to_epub cfg env ?a ?b ?w3] =>
        assert (Hready : workspace_ready cfg env req w td w3)
          by (split_and!; [done|done|by rewrite snoc2|by rewrite snoc3]);
        destruct (pdf_to_epub cfg env a b w3) as [[e|[]] w4] eqn:Hc
    end; proj in H.
    { rewrite H. by eapply Resp500. }
    destruct (send_email_with_attachment cfg env _ _ _ _ w4)
      as [[e|[]] w5] eqn:Hd; proj in H; rewrite H.
    + by eapply Resp502.
    + by eapply Resp200.
Qed.

(** C6. The content type is checked before the size. The accepted types
    are [application/pdf] and [application/octet-stream]; an authorized
    request with any other type is answered 400 whatever the size of its
    payload, and its upload is not even read; the upload is read, and the
    413 of the size check given, only to a request whose type was
    accepted. *)
Theorem type_checked_before_size (cfg : Config) (env : Env)
    (req : ConvertRequest) (w : World) :
  let r := convert_pdf_to_epub_endpoint cfg env req w in
  (accepted_content_type (content_type req) = true <->
     content_type req = Some "application/pdf" \/
     content_type req = Some "application/octet-stream") /\
  (authorized cfg req ->
   accepted_content_type (content_type req) = false ->
     r = (inl (HTTPException 400
                 ("Expected PDF, got " +:+ fmt_opt (content_type req))), w)) /\
  (In EvReadUpload (new_events w r.2) ->
     accepted_content_type (content_type req) = true) /\
  (r.1 = inl (HTTPException 413 "PDF too large") ->
     accepted_content_type (content_type req) = true).
Proof.
  intros r. pose proof (convert_run cfg env req w) as H. cbv zeta in H.
  fold r in H. split_and!.
  - unfold accepted_content_type. destruct (content_type req) as [t|].
    + rewrite orb_true_iff, !bool_decide_eq_true.
      split; (intros [E|E]; [left|right]; congruence).
    + split; [done | intros [?|?]; done].
  - unfold authorized. intros Ha Ht. by rewrite Ha, Ht in H.
  - destruct (authorize_spec _ _) as [e|[]].
    { rewrite H. proj. by rewrite new_events_refl. }
    destruct (accepted_content_type _); [done|].
    rewrite H. proj. by rewrite new_events_refl.
  - destruct (authorize_spec _ _) as [e|[]] eqn:Ha.
    { rewrite H. proj. intros [= ->].
      unfold authorize_spec, Unauthorized, Forbidden in Ha.
      destruct (authorization req) as [a|]; [|done].
      destruct (PyStr.startswith "Bearer " a); [|done].
      by repeat case_bool_decide. }
    destruct (accepted_content_type _); [done|]. by rewrite H.
Qed.

(** C5, as the code has it. Of the authorized requests, one whose content
    type is accepted and whose payload is longer than [MAX_PDF_BYTES] is
    answered 413, the upload having been read and nothing else done; one
    whose content type is not accepted is answered 400 whatever the size of
    its payload, the type being checked first. *)
Theorem oversized_accepted_type_is_413 (cfg : Config) (env : Env)
    (req : ConvertRequest) (w : World) :
  authorized cfg req ->
  let r := convert_pdf_to_epub_endpoint cfg env req w in
  (accepted_content_type (content_type req) = true ->
   Z.of_nat (length (raw req)) > MAX_PDF_BYTES cfg ->
     r = (inl (HTTPException 413 "PDF too large"), logged EvReadUpload w) /\
     status (http_response r.1) = 413) /\
  (accepted_content_type (content_type req) = false ->
     r = (inl (HTTPException 400
                 ("Expected PDF, got " +:+ fmt_opt (content_type req))), w) /\
     status (http_response r.1) = 400).
Proof.
  intros Ha r. unfold authorized in Ha.
  pose proof (convert_run cfg env req w) as H. cbv zeta in H. fold r in H.
  rewrite Ha in H. split.
  - intros Ht Hs. rewrite Ht in H.
    destruct (Z.gtb_spec (Z.of_nat (length (raw req))) (MAX_PDF_BYTES cfg));
      [|lia].
    by rewrite H.
  - intros Ht. rewrite Ht in H. by rewrite H.
Qed.

(** C7. When the converter exits with a status other than zero,
    [pdf_to_epub] raises the tool-failed error whose text ends with the
    last 2000 characters of the decoded error stream, all of it when it is
    shorter; and the request is answered 500 with that text as detail. *)
Theorem tool_failed_excerpt (cfg : Config) (env : Env) :
  (forall pdf_path epub_path w rc out err f,
     proc_run env (events w) [EBOOK_CONVERT_BIN cfg; pdf_path; epub_path] (fs w)
       = (RunCompleted rc out err, f) ->
     rc <> 0 ->
     let excerpt := PyStr.tail 2000 (bytes_decode env err) in
     (pdf_to_epub cfg env pdf_path epub_path w).1
       = inl (RuntimeError ("Conversion failed: " +:+ excerpt)) /\
     (String.length excerpt <= 2000)%nat /\
     String.length excerpt
       = Nat.min 2000 (String.length (bytes_decode env err)) /\
     exists before, bytes_decode env err = before +:+ excerpt) /\
  (forall req w td w3 rc out err f,
     workspace_ready cfg env req w td w3 ->
     proc_run env (events w3)
       [EBOOK_CONVERT_BIN cfg; PyPath.join td "input.pdf";
        PyPath.join td "output.epub"] (fs w3)
       = (RunCompleted rc out err, f) ->
     rc <> 0 ->
     http_response (convert_pdf_to_epub_endpoint cfg env req w).1 =
       {| status := 500;
          content := detail_body
            ("Conversion failed: " +:+ PyStr.tail 2000 (bytes_decode env err)) |}).
Proof.
  split.
  - intros pdf_path epub_path w rc out err f Hrun Hrc excerpt.
    rewrite pdf_to_epub_run. proj. rewrite Hrun. proj.
    unfold classify_conversion. rewrite decide_False by done.
    split_and!; [done|apply length_tail|apply length_tail_min|apply tail_suffix].
  - intros req w td w3 rc out err f Hready Hrun Hrc.
    rewrite (convert_in_workspace cfg env req w td w3 Hready).
    rewrite pdf_to_epub_run. proj. rewrite Hrun. proj.
    unfold classify_conversion. rewrite decide_False by done. done.
Qed.

(** C3. Whatever the outcome of a request to [POST /convert], a directory
    created for it is created once and removed once, the removal is the
    last thing the request does, and afterwards neither the directory nor
    anything below it is on the filesystem; nothing is removed that the
    request did not create, and at most one directory is created. *)
Theorem workspace_released_once (cfg : Config) (env : Env)
    (req : ConvertRequest) (w : World) :
  let r := convert_pdf_to_epub_endpoint cfg env req w in
  let l := new_events w r.2 in
  (forall td, In (EvMkdtemp td) l ->
     occurrences (is_acquire td) l = 1%nat /\
     occurrences (is_release td) l = 1%nat /\
     last l = Some (EvRmtree td) /\
     fs r.2 !! td = None /\
     forall p, PyPath.within td p = true -> fs r.2 !! p = None) /\
  (forall td, ~ In (EvMkdtemp td) l -> occurrences (is_release td) l = 0%nat) /\
  (occurrences is_workspace_event l <= 2)%nat.
Proof.
  intros r l.
  pose proof (convert_trace cfg env req w) as H. cbv zeta in H.
  fold r in H. fold l in H.
  destruct H as [[Hnone _]|(td0 & l2 & Hl & Hl2 & Hrm)].
  - split_and!.
    + intros td Hin. by apply no_mkdtemp in Hin.
    + intros td _. apply occurrences_none.
      eapply Forall_impl; [exact Hnone|]. apply release_is_workspace.
    + rewrite occurrences_none by done. lia.
  - assert (Hacq : forall td, occurrences (is_acquire td) l2 = 0%nat).
    { intros td. apply occurrences_none.
      eapply Forall_impl; [exact Hl2|]. apply acquire_is_workspace. }
    assert (Hrel : forall td, occurrences (is_release td) l2 = 0%nat).
    { intros td. apply occurrences_none.
      eapply Forall_impl; [exact Hl2|]. apply release_is_workspace. }
    assert (Hin0 : forall td, In (EvMkdtemp td) l <-> td = td0).
    { intros td. rewrite Hl. cbn. rewrite in_app_iff. cbn. split.
      - intros [?|[?|[Hin|[?|[]]]]]; try congruence.
        by apply no_mkdtemp in Hin.
      - intros ->. auto. }
    rewrite Hl. split_and!.
    + intros td Hin. rewrite <- Hl in Hin. apply Hin0 in Hin as ->.
      rewrite !occurrences_cons, !occurrences_app, !occurrences_cons.
      rewrite Hacq, Hrel. cbn [is_acquire is_release].
      rewrite !bool_decide_eq_true_2 by done.
      split_and!; [done|done| |apply Hrm, within_refl|done].
      change (last ((EvReadUpload :: EvMkdtemp td0 :: l2) ++ [EvRmtree td0])
              = Some (EvRmtree td0)).
      apply last_snoc.
    + intros td Hin. rewrite <- Hl, Hin0 in Hin.
      rewrite !occurrences_cons, !occurrences_app, !occurrences_cons.
      rewrite Hrel. cbn [is_release].
      rewrite bool_decide_eq_false_2 by congruence. done.
    + rewrite !occurrences_cons, !occurrences_app, !occurrences_cons.
      rewrite (occurrences_none _ l2) by done. cbn. lia.
Qed.

(** ** The claims about [POST /test-email] *)


(** C9. [POST /test-email] is meant to send a message without attachment
    to [KINDLE_EMAIL]. On a host where [/dev/null] is an empty file and the
    server takes everything, the message delivered carries an attachment
    (no bytes, named ["null"]); and where the server refuses that first
    message, the plain one goes to ["ozzy.dave@gmail.com"] while the 200
    names [KINDLE_EMAIL] as [sent_to]. *)
Theorem test_email_misdelivers :
  (let r := test_email Demo.cfg Demo.env (Some "Bearer s3cret") Demo.w0 in
   http_response r.1 =
     {| status := 200;
        content := JsonBody [("ok", JBool true);
                             ("sent_to", JStr "reader@kindle.example")] |} /\
   map msg_To (outbox r.2) = ["reader@kindle.example"] /\
   map msg_attachment (outbox r.2) =
     [Some {| att_data := []; att_maintype := "application";
              att_subtype := "epub+zip"; att_filename := "null" |}]) /\
  (let r := test_email Demo.cfg Demo.flaky_env (Some "Bearer s3cret") Demo.w0 in
   http_response r.1 =
     {| status := 200;
        content := JsonBody [("ok", JBool true);
                             ("sent_to", JStr "reader@kindle.example")] |} /\
   map msg_To (outbox r.2) = ["ozzy.dave@gmail.com"] /\
   map msg_attachment (outbox r.2) = [None]).
Proof. split; vm_compute; done. Qed.

(** ** The program on small inputs *)

Example strip_both_ends : PyStr.strip "  a b  " = "a b".
Proof. reflexivity. Qed.

Example tail_short : PyStr.tail 3 "ab" = "ab".
Proof. reflexivity. Qed.

Example tail_long : PyStr.tail 3 "abcdef" = "def".
Proof. reflexivity. Qed.

Example name_of_dev_null : PyPath.name "/dev/null" = "null".
Proof. reflexivity. Qed.

Example bearer_accepted :
  (require_bearer Demo.cfg (Some "Bearer s3cret") Demo.w0).1 = inr tt.
Proof. reflexivity. Qed.

Example bearer_padded_accepted :
  (require_bearer Demo.cfg (Some "Bearer   s3cret  ") Demo.w0).1 = inr tt.
Proof. reflexivity. Qed.

Example bearer_lowercase_scheme :
  (require_bearer Demo.cfg (Some "bearer s3cret") Demo.w0).1 = inl Unauthorized.
Proof. reflexivity. Qed.

Example bearer_blank_token :
  (require_bearer Demo.cfg (Some "Bearer   ") Demo.w0).1 = inl Unauthorized.
Proof. reflexivity. Qed.

Example bearer_wrong_token :
  (require_bearer Demo.cfg (Some "Bearer guess") Demo.w0).1 = inl Forbidden.
Proof. reflexivity. Qed.

Example convert_ok :
  http_response
    (convert_pdf_to_epub_endpoint Demo.cfg Demo.env Demo.req Demo.w0).1 =
    {| status := 200;
       content := JsonBody [("ok", JBool true);
                            ("sent_to", JStr "reader@kindle.example")] |}.
Proof. vm_compute. reflexivity. Qed.

Example convert_ok_history :
  new_events Demo.w0
    (convert_pdf_to_epub_endpoint Demo.cfg Demo.env Demo.req Demo.w0).2 =
    [EvReadUpload;
     EvMkdtemp "/tmp/tmpab12";
     EvWriteBytes "/tmp/tmpab12/input.pdf";
     EvRun ["ebook-convert"; "/tmp/tmpab12/input.pdf"; "/tmp/tmpab12/output.epub"];
     EvReadBytes "/tmp/tmpab12/output.epub";
     EvSmtpConnect "smtp.example.com" 587 30;
     EvStartTLS;
     EvLogin "mailer" "pw";
     EvSendMessage
       (attachment_message Demo.cfg "Your converted EPUB"
          "Attached is the EPUB converted from your PDF."
          "reader@kindle.example" "/tmp/tmpab12/output.epub"
          ["E"%byte; "P"%byte; "U"%byte]);
     EvQuit;
     EvRmtree "/tmp/tmpab12"].
Proof. vm_compute. reflexivity. Qed.

Example convert_no_mail_host :
  status (http_response
            (convert_pdf_to_epub_endpoint Demo.cfg_no_host Demo.env
               Demo.req Demo.w0).1) = 502.
Proof. vm_compute. reflexivity. Qed.

Example convert_silent_converter :
  http_response
    (convert_pdf_to_epub_endpoint Demo.cfg Demo.silent_env Demo.req Demo.w0).1 =
    {| status := 500;
       content := detail_body "Conversion failed: output EPUB was not created" |}.
Proof. vm_compute. reflexivity. Qed.

(** A server that takes the message and then refuses QUIT: the converted
    book is delivered and the request is answered 502. *)
Example convert_quit_refused :
  let r := convert_pdf_to_epub_endpoint Demo.cfg Demo.quit_env Demo.req Demo.w0 in
  http_response r.1 =
    {| status := 502;
       content := detail_body "Email failed: (421, b'closing')" |} /\
  outbox r.2 =
    [converted_message Demo.cfg ["E"%byte; "P"%byte; "U"%byte]].
Proof. vm_compute. split; reflexivity. Qed.

(** The same server at [POST /test-email]: both messages are delivered, the
    one with [/dev/null] attached and the plain one, and the answer is 502. *)
Example test_email_quit_refused :
  let r := test_email Demo.cfg Demo.quit_env (Some "Bearer s3cret") Demo.w0 in
  status (http_response r.1) = 502 /\
  outbox r.2 =
    [attachment_message Demo.cfg "SMTP test (no attachment)"
       "If you received this, SMTP is working."
       "reader@kindle.example" "/dev/null" [];
     plain_test_message Demo.cfg].
Proof. vm_compute. split; reflexivity. Qed.

(** A sender address of two lines is refused when the message is built:
    the converter has run, no server is contacted, and the answer is 502
    with the text of the library's error. *)
Example convert_two_line_sender :
  let r := convert_pdf_to_epub_endpoint Demo.cfg_two_line_from Demo.strict_env
             Demo.req Demo.w0 in
  http_response r.1 =
    {| status := 502;
       content := detail_body
         "Header values may not contain linefeed or carriage return characters" |} /\
  outbox r.2 = [] /\
  forallb (fun e => negb (is_network e)) (new_events Demo.w0 r.2) = true.
Proof. vm_compute. split_and!; reflexivity. Qed.

(** ** The claims at concrete inputs *)

(** C5, as stated, fails: five bytes under a limit of four, declared as
    [text/plain] by an authorized client, are answered 400, not 413. *)
Lemma oversized_text_upload_is_400 :
  authorized Demo.cfg Demo.big_text_req /\
  Z.of_nat (length (raw Demo.big_text_req)) > MAX_PDF_BYTES Demo.cfg /\
  status (http_response
            (convert_pdf_to_epub_endpoint Demo.cfg Demo.env
               Demo.big_text_req Demo.w0).1) = 400 /\
  ~ (forall cfg env req w,
       authorized cfg req ->
       Z.of_nat (length (raw req)) > MAX_PDF_BYTES cfg ->
       status (http_response (convert_pdf_to_epub_endpoint cfg env req w).1) = 413).
Proof.
  split_and!; [reflexivity|reflexivity|reflexivity|].
  intros H.
  specialize (H Demo.cfg Demo.env Demo.big_text_req Demo.w0 eq_refl eq_refl).
  vm_compute in H. discriminate.
Qed.

Lemma oversized_accepted_type_is_413_witness :
  authorized Demo.cfg Demo.big_pdf_req /\
  accepted_content_type (content_type Demo.big_pdf_req) = true /\
  Z.of_nat (length (raw Demo.big_pdf_req)) > MAX_PDF_BYTES Demo.cfg /\
  status (http_response
            (convert_pdf_to_epub_endpoint Demo.cfg Demo.env
               Demo.big_pdf_req Demo.w0).1) = 413 /\
  authorized Demo.cfg Demo.big_text_req /\
  accepted_content_type (content_type Demo.big_text_req) = false /\
  status (http_response
            (convert_pdf_to_epub_endpoint Demo.cfg Demo.env
               Demo.big_text_req Demo.w0).1) = 400.
Proof.
  split_and!;
    [reflexivity | reflexivity | reflexivity | | reflexivity | reflexivity | ].
  - apply (oversized_accepted_type_is_413 Demo.cfg Demo.env Demo.big_pdf_req
             Demo.w0); reflexivity.
  - apply (oversized_accepted_type_is_413 Demo.cfg Demo.env Demo.big_text_req
             Demo.w0); reflexivity.
Defined.

Lemma type_checked_before_size_witness :
  authorized Demo.cfg Demo.big_text_req /\
  accepted_content_type (content_type Demo.big_text_req) = false /\
  convert_pdf_to_epub_endpoint Demo.cfg Demo.env Demo.big_text_req Demo.w0 =
    (inl (HTTPException 400 "Expected PDF, got text/plain"), Demo.w0).
Proof.
  split_and!; [reflexivity|reflexivity|].
  apply (type_checked_before_size Demo.cfg Demo.env Demo.big_text_req Demo.w0);
    reflexivity.
Defined.

Lemma pdf_to_epub_output_witness :
  (pdf_to_epub Demo.cfg Demo.env "/w/input.pdf" "/w/output.epub" Demo.w0).1
    = inr tt /\
  (pdf_to_epub Demo.cfg Demo.silent_env "/w/input.pdf" "/w/output.epub" Demo.w0).1
    = inl EmptyOutput.
Proof.
  split.
  - apply (pdf_to_epub_output Demo.cfg Demo.env "/w/input.pdf" "/w/output.epub"
             Demo.w0)
      with (out := []) (err := [])
           (f := <["/w/output.epub" := File ["E"%byte; "P"%byte; "U"%byte]]>
                   (fs Demo.w0)) (sz := 3);
      [reflexivity | vm_compute; reflexivity | discriminate].
  - apply (pdf_to_epub_output Demo.cfg Demo.silent_env "/w/input.pdf"
             "/w/output.epub" Demo.w0)
      with (out := []) (err := []) (f := fs Demo.w0);
      [reflexivity | left; vm_compute; reflexivity].
Defined.

Lemma tool_failed_excerpt_witness :
  workspace_ready Demo.cfg Demo.failing_env Demo.req Demo.w0
    "/tmp/tmpab12" Demo.ready_world /\
  http_response
    (convert_pdf_to_epub_endpoint Demo.cfg Demo.failing_env Demo.req Demo.w0).1 =
    {| status := 500;
       content := detail_body
         ("Conversion failed: "
          +:+ PyStr.tail 2000 (Demo.latin1 Demo.long_stderr)) |} /\
  (String.length (PyStr.tail 2000 (Demo.latin1 Demo.long_stderr)) <= 2000)%nat.
Proof.
  assert (Hready : workspace_ready Demo.cfg Demo.failing_env Demo.req Demo.w0
                     "/tmp/tmpab12" Demo.ready_world).
  { unfold workspace_ready, validated, authorized.
    split_and!; try reflexivity. vm_compute. discriminate. }
  destruct (tool_failed_excerpt Demo.cfg Demo.failing_env) as [Hconv Hresp].
  split_and!.
  - exact Hready.
  - apply (Hresp Demo.req Demo.w0 "/tmp/tmpab12" Demo.ready_world 1 []
             Demo.long_stderr (fs Demo.ready_world) Hready);
      [reflexivity | discriminate].
  - apply (Hconv "/w/input.pdf" "/w/output.epub" Demo.w0 1 [] Demo.long_stderr
             (fs Demo.w0)); [reflexivity | discriminate].
Defined.

Lemma workspace_released_once_witness :
  let r := convert_pdf_to_epub_endpoint Demo.cfg Demo.failing_env Demo.req Demo.w0 in
  In (EvMkdtemp "/tmp/tmpab12") (new_events Demo.w0 r.2) /\
  occurrences (is_release "/tmp/tmpab12") (new_events Demo.w0 r.2) = 1%nat /\
  fs r.2 !! "/tmp/tmpab12/input.pdf" = None.
Proof.
  intros r.
  assert (Hin : In (EvMkdtemp "/tmp/tmpab12") (new_events Demo.w0 r.2)).
  { vm_compute. auto. }
  destruct (workspace_released_once Demo.cfg Demo.failing_env Demo.req Demo.w0)
    as [Hrel _].
  destruct (Hrel "/tmp/tmpab12" Hin) as (_ & Hone & _ & _ & Hgone).
  split_and!; [exact Hin | exact Hone | apply Hgone; reflexivity].
Defined.

Lemma send_email_ordering_witness :
  (send_email_with_attachment Demo.cfg_no_host Demo.env "s" "b" "to@example.com"
     "/dev/null" Demo.w0
   = (inl (RuntimeError "SMTP_HOST is not set"), Demo.w0)) /\
  (send_email_with_attachment Demo.cfg Demo.env "s" "b" "to@example.com"
     "/dev/null" Demo.w_bare
   = (inl (RuntimeError "Attachment not found"), Demo.w_bare)) /\
  (exists data,
     new_events Demo.w0
       (send_email_with_attachment Demo.cfg Demo.env "s" "b" "to@example.com"
          "/dev/null" Demo.w0).2
     = EvReadBytes "/dev/null"
       :: session_script Demo.cfg
            (attachment_message Demo.cfg "s" "b" "to@example.com" "/dev/null" data)
       ++ [EvQuit]).
Proof.
  split_and!.
  - apply (send_email_ordering Demo.cfg_no_host Demo.env "s" "b" "to@example.com"
             "/dev/null" Demo.w0). reflexivity.
  - apply (send_email_ordering Demo.cfg Demo.env "s" "b" "to@example.com"
             "/dev/null" Demo.w_bare); [discriminate | reflexivity].
  - destruct (send_email_ordering Demo.cfg Demo.env "s" "b" "to@example.com"
                "/dev/null" Demo.w0) as (_ & _ & _ & _ & Hok).
    destruct Hok as (data & _ & Hl); [reflexivity|]. by exists data.
Defined.



(** ** Further properties of [require_bearer] *)

Section Strip.

Lemma rstrip_blank (ws : string) : blank ws = true -> PyStr.rstrip ws = EmptyString.
Proof.
  induction ws as [|c ws IH]; [done|]. cbn.
  intros [Hc Hws]%andb_true_iff. by rewrite IH, Hc.
Qed.

Lemma lstrip_blank_app (ws s : string) :
  blank ws = true -> PyStr.lstrip (ws +:+ s) = PyStr.lstrip s.
Proof.
  induction ws as [|c ws IH]; [done|].
  intros [Hc Hws]%andb_true_iff.
  change (String c ws +:+ s) with (String c (ws +:+ s)).
  cbn [PyStr.lstrip]. rewrite Hc. by apply IH.
Qed.

Lemma rstrip_app_blank (s ws : string) :
  blank ws = true -> PyStr.rstrip (s +:+ ws) = PyStr.rstrip s.
Proof.
  intros Hws. induction s as [|c s IH]; [by apply rstrip_blank|].
  change (String c s +:+ ws) with (String c (s +:+ ws)).
  cbn [PyStr.rstrip]. by rewrite IH.
Qed.

Lemma rstrip_blank_app (ws u : string) :
  blank ws = true ->
  PyStr.rstrip (ws +:+ u) =
    match PyStr.rstrip u with
    | EmptyString => EmptyString
    | r => ws +:+ r
    end.
Proof.
  induction ws as [|c ws IH].
  { intros _. change (EmptyString +:+ u) with u. by destruct (PyStr.rstrip u). }
  intros [Hc Hws]%andb_true_iff.
  change (String c ws +:+ u) with (String c (ws +:+ u)).
  cbn [PyStr.rstrip]. rewrite IH by done.
  destruct (PyStr.rstrip u) as [|d r]; [by rewrite Hc|].
  by destruct ws.
Qed.

(** Padding a text with whitespace does not change what [strip] gives. *)
Lemma strip_padded (ws1 t ws2 : string) :
  blank ws1 = true -> blank ws2 = true ->
  PyStr.strip (ws1 +:+ t +:+ ws2) = PyStr.strip t.
Proof.
  intros H1 H2. unfold PyStr.strip.
  rewrite rstrip_blank_app, rstrip_app_blank by done.
  destruct (PyStr.rstrip t) as [|d r]; [done|].
  by apply lstrip_blank_app.
Qed.

Lemma rstrip_idem (s : string) : PyStr.rstrip (PyStr.rstrip s) = PyStr.rstrip s.
Proof.
  induction s as [|c s IH]; [done|]. cbn [PyStr.rstrip].
  destruct (PyStr.rstrip s) as [|d r] eqn:Hr.
  - destruct (PyStr.isspace c) eqn:Hc; [done|]. cbn. by rewrite Hc.
  - cbn [PyStr.rstrip] in *. by rewrite IH.
Qed.

Lemma rstrip_lstrip_fixed (s : string) :
  PyStr.rstrip s = s -> PyStr.rstrip (PyStr.lstrip s) = PyStr.lstrip s.
Proof.
  induction s as [|c s IH]; [done|]. intros H. cbn [PyStr.lstrip].
  destruct (PyStr.isspace c) eqn:Hc; [|done].
  apply IH. cbn [PyStr.rstrip] in H. rewrite Hc in H.
  destruct (PyStr.rstrip s) as [|d r]; [done|]. by injection H.
Qed.

Lemma lstrip_idem (s : string) : PyStr.lstrip (PyStr.lstrip s) = PyStr.lstrip s.
Proof.
  induction s as [|c s IH]; [done|]. cbn [PyStr.lstrip].
  destruct (PyStr.isspace c) eqn:Hc; [done|]. cbn. by rewrite Hc.
Qed.

(** What [strip] returns has nothing left to strip. *)
Lemma strip_idem (s : string) : PyStr.strip (PyStr.strip s) = PyStr.strip s.
Proof.
  unfold PyStr.strip.
  rewrite (rstrip_lstrip_fixed (PyStr.rstrip s)) by apply rstrip_idem.
  apply lstrip_idem.
Qed.

End Strip.

(** X1. Whitespace around the token does not matter: a header whose token
    is padded with whitespace on either side gets the verdict of the header
    with the bare token. *)
Theorem require_bearer_padding (cfg : Config) (ws1 t ws2 : string) (w : World) :
  blank ws1 = true -> blank ws2 = true ->
  require_bearer cfg (Some ("Bearer " +:+ ws1 +:+ t +:+ ws2)) w =
  require_bearer cfg (Some ("Bearer " +:+ t)) w.
Proof.
  intros H1 H2. rewrite !require_bearer_spec. unfold authorize_spec.
  rewrite !(proj2 (startswith_app "Bearer " _)) by eauto.
  unfold header_token. rewrite !drop_bearer.
  by rewrite strip_padded.
Qed.

Lemma require_bearer_padding_witness :
  blank "  " = true /\
  require_bearer Demo.cfg (Some ("Bearer " +:+ "  " +:+ "s3cret" +:+ "  ")) Demo.w0 =
  require_bearer Demo.cfg (Some ("Bearer " +:+ "s3cret")) Demo.w0.
Proof.
  split; [reflexivity|].
  apply (require_bearer_padding Demo.cfg "  " "s3cret" "  " Demo.w0); reflexivity.
Defined.

(** X2. Some header passes the check exactly when the configured secret is
    not empty and has no whitespace at either end; with any other secret
    every request is turned away. *)
Theorem require_bearer_usable_secret (cfg : Config) :
  (exists h w, (require_bearer cfg h w).1 = inr tt) <->
  BEARER_TOKEN cfg <> EmptyString /\
  PyStr.strip (BEARER_TOKEN cfg) = BEARER_TOKEN cfg.
Proof.
  split.
  - intros (h & w & H). rewrite require_bearer_spec in H. cbn [fst] in H.
    unfold authorize_spec in H. destruct h as [a|]; [|done].
    destruct (PyStr.startswith "Bearer " a); [|done].
    destruct (bool_decide_reflect (header_token a = EmptyString)) as [|Hne];
      [done|].
    destruct (bool_decide_reflect (header_token a = BEARER_TOKEN cfg))
      as [Heq|]; [|done].
    rewrite <- Heq. split; [done|]. apply strip_idem.
  - intros [Hne Hfix].
    exists (Some ("Bearer " +:+ BEARER_TOKEN cfg)),
           {| fs := ∅; outbox := []; events := [] |}.
    rewrite require_bearer_spec. cbn [fst]. unfold authorize_spec.
    rewrite (proj2 (startswith_app "Bearer " _)) by eauto.
    unfold header_token. rewrite drop_bearer, Hfix.
    rewrite bool_decide_eq_false_2 by done.
    by rewrite bool_decide_eq_true_2.
Qed.

(** ** Further properties of [pdf_to_epub] *)

(** X3. Whatever the outcome, [pdf_to_epub] starts the converter once, with
    the configured command and the two paths, and does nothing else outside
    the process: no second attempt, no mail, and a filesystem that is what
    the converter left. An error it raises itself is a [RuntimeError] whose
    text begins with ["Conversion failed: "]; any other error is the one the
    spawn raised. *)
Theorem pdf_to_epub_single_run (cfg : Config) (env : Env)
    (pdf_path epub_path : string) (w : World) :
  let cmd := [EBOOK_CONVERT_BIN cfg; pdf_path; epub_path] in
  let o := proc_run env (events w) cmd (fs w) in
  let r := pdf_to_epub cfg env pdf_path epub_path w in
  new_events w r.2 = [EvRun cmd] /\
  outbox r.2 = outbox w /\
  fs r.2 = o.2 /\
  (forall e, r.1 = inl e ->
     (exists m, e = RuntimeError ("Conversion failed: " +:+ m)) \/
     o.1 = RunRaised e).
Proof.
  cbv zeta. rewrite pdf_to_epub_run. proj.
  split_and!; [by apply new_events_app|done|done|].
  intros e. unfold classify_conversion.
  destruct (proc_run env _ _ _) as [[|e'|rc out err] f]; proj.
  - intros [= <-]. left. by eexists.
  - intros [= <-]. by right.
  - destruct (decide (rc = 0)).
    + destruct (size_on_disk env f epub_path) as [sz|].
      * destruct (decide (sz = 0)); [|done]. intros [= <-]. left. by eexists.
      * intros [= <-]. left. by eexists.
    + intros [= <-]. left. by eexists.
Qed.

(** ** Further properties of the mail session *)


(** X5. A session that was opened is closed: when the connection is
    refused the session consists of the refused call alone; otherwise,
    however the session goes, QUIT is sent once and is its last call. *)
Theorem smtp_session_closed (cfg : Config) (env : Env)
    (msg : EmailMessage) (w : World) :
  let r := smtp_session cfg env msg w in
  let l := new_events w r.2 in
  match smtp_connect env (events w) (SMTP_HOST cfg) (SMTP_PORT cfg) 30 with
  | Some e =>
      r.1 = inl e /\ l = [EvSmtpConnect (SMTP_HOST cfg) (SMTP_PORT cfg) 30]
  | None => last l = Some EvQuit /\ occurrences is_quit l = 1%nat
  end.
Proof.
  cbv zeta. unfold_smtp. unfold_m.
  destruct (smtp_connect env _ _ _ _) as [e|]; proj.
  { split; [done|]. by apply new_events_app. }
  destruct (SMTP_TLS cfg), (PyStr.truthy (SMTP_USER cfg));
    proj; server_answers env;
    (erewrite new_events_app by trace_eq; done).
Qed.

(** X6. With TLS configured, neither the password nor the message is handed
    to the server unless the upgrade to TLS succeeded. *)
Theorem no_secrets_without_tls (cfg : Config) (env : Env)
    (msg : EmailMessage) (w : World) :
  SMTP_TLS cfg = true ->
  let r := smtp_session cfg env msg w in
  (exists e, In e (new_events w r.2) /\ is_login_or_send e = true) ->
  smtp_starttls env
    (events w ++ [EvSmtpConnect (SMTP_HOST cfg) (SMTP_PORT cfg) 30]) = None.
Proof.
  intros Htls. cbv zeta. unfold_smtp. unfold_m. rewrite Htls.
  destruct (smtp_connect env _ _ _ _) as [e|]; proj.
  { erewrite new_events_app by trace_eq.
    intros (e' & [<-|[]] & He). done. }
  destruct (smtp_starttls env _) as [e|]; proj; [|done].
  destruct (smtp_quit env _) as [q|]; proj;
    (erewrite new_events_app by trace_eq;
     intros (e' & Hin & He); cbn in Hin;
     destruct Hin as [<-|[<-|[<-|[]]]]; done).
Qed.

(** X7. The six ways [send_email_with_attachment] fails, in the order of
    its stages. With [SMTP_HOST] empty it raises its first fixed error and
    with the attachment path absent its second, the world untouched. When
    reading the attachment raises, or when the message library refuses a
    header, the body or the attachment, that exception comes out as it is,
    the read being the only call made. When the session raises an
    authentication error the fixed authentication text is raised; when it
    raises anything else, the error is ["Email failed: "] followed by the
    text of that exception. *)
Theorem send_email_errors (cfg : Config) (env : Env)
    (subject body to_addr path : string) (w : World) (e : exn) :
  let r := send_email_with_attachment cfg env subject body to_addr path w in
  let w1 := logged (EvReadBytes path) w in
  r.1 = inl e ->
  (SMTP_HOST cfg = EmptyString /\
   e = RuntimeError "SMTP_HOST is not set" /\ r.2 = w) \/
  (SMTP_HOST cfg <> EmptyString /\ fs w !! path = None /\
   e = RuntimeError "Attachment not found" /\ r.2 = w) \/
  (SMTP_HOST cfg <> EmptyString /\ fs w !! path = Some Dir /\
   e = OtherException ("[Errno 21] Is a directory: '" +:+ path +:+ "'") /\
   r.2 = w1) \/
  (exists data,
     SMTP_HOST cfg <> EmptyString /\ fs w !! path = Some (File data) /\
     let msg := attachment_message cfg subject body to_addr path data in
     let s := smtp_session cfg env msg w1 in
     (fs_read env (events w) path = Some e /\ r.2 = w1) \/
     (fs_read env (events w) path = None /\
      message_error env msg = Some e /\ r.2 = w1) \/
     (fs_read env (events w) path = None /\
      message_error env msg = None /\ r.2 = s.2 /\
      exists e', s.1 = inl e' /\
        ((exists t, e' = SMTPAuthenticationError t) /\
         e = RuntimeError
               "Email failed: SMTP authentication failed (check SMTP_USER/SMTP_PASS)"
         \/
         (forall t, e' <> SMTPAuthenticationError t) /\
         e = RuntimeError ("Email failed: " +:+ str_exn e')))).
Proof.
  intros r w1.
  pose proof (send_email_unfold cfg env subject body to_addr path w) as H.
  cbv zeta in H. fold r w1 in H.
  destruct (PyStr.truthy (SMTP_HOST cfg)) eqn:Hhost; cbn [negb] in H.
  2:{ rewrite H. proj. intros [= <-]. left. by apply truthy_false in Hhost. }
  assert (Hne : SMTP_HOST cfg <> EmptyString) by (by intros E; rewrite E in Hhost).
  destruct (fs w !! path) as [[|data]|] eqn:Hp.
  - rewrite H. proj. intros [= <-]. do 2 right. left. done.
  - intros He. do 3 right. exists data. split; [done|]. split; [done|].
    cbv zeta.
    destruct (fs_read env (events w) path) as [e0|].
    { rewrite H in He |- *. proj. proj in He. injection He as <-. by left. }
    destruct (message_error env _) as [e0|].
    { rewrite H in He |- *. proj. proj in He. injection He as <-.
      right. by left. }
    right. right. rewrite H in He |- *. proj. proj in He.
    split_and!; [done|done|done|].
    destruct (smtp_session cfg env _ w1).1 as [e'|u]; [|done].
    injection He as <-. exists e'. split; [done|].
    destruct e'; first [ left; split; [by eexists | done]
                       | right; split; [done | done] ].
  - rewrite H. proj. intros [= <-]. right. left. done.
Qed.

(** ** Further properties of [POST /convert] *)

Section Stages.
Context (cfg : Config) (env : Env).

Lemma authorize_spec_errors (secret : string) (h : option string) (e : exn) :
  authorize_spec secret h = inl e -> e = Unauthorized \/ e = Forbidden.
Proof.
  unfold authorize_spec. destruct h as [a|]; [|intros [= <-]; auto].
  destruct (PyStr.startswith "Bearer " a); [|intros [= <-]; auto].
  repeat case_bool_decide; intros [= <-]; auto.
Qed.



(** How far a request gets: turned away by a check, stopped by the
    environment while the workspace is set up, or through to the
    converter. *)
Lemma convert_stage_cases (req : ConvertRequest) (w : World) :
  let r := convert_pdf_to_epub_endpoint cfg env req w in
  (~ validated cfg req /\
   (r.2 = w \/ r.2 = logged EvReadUpload w) /\
   exists c d, r.1 = inl (HTTPException c d) /\
               (c = 401 \/ c = 403 \/ c = 400 \/ c = 413)) \/
  (validated cfg req /\
   exists e, tmp_create env (events w ++ [EvReadUpload]) = inl e /\
             r = (inl e, logged EvReadUpload w)) \/
  (validated cfg req /\
   exists td e,
     tmp_create env (events w ++ [EvReadUpload]) = inr td /\
     fs_write env (events w ++ [EvReadUpload; EvMkdtemp td])
       (PyPath.join td "input.pdf") = Some e /\
     r = (inl e,
          TemporaryDirectory_cleanup td
            {| fs := <[td := Dir]> (fs w);
               outbox := outbox w;
               events := events w ++ [EvReadUpload; EvMkdtemp td;
                                      EvWriteBytes (PyPath.join td "input.pdf")] |})) \/
  (exists td w3, workspace_ready cfg env req w td w3).
Proof.
  intros r. pose proof (convert_run cfg env req w) as H. cbv zeta in H.
  fold r in H. unfold logged, set_fs in H. proj in H.
  destruct (authorize_spec _ _) as [e|[]] eqn:Ha.
  { left. rewrite H. proj. split_and!.
    - intros (Hv & _). unfold authorized in Hv. congruence.
    - by left.
    - apply authorize_spec_errors in Ha as [-> | ->]; do 2 eexists; eauto. }
  destruct (accepted_content_type (content_type req)) eqn:Ht.
  2:{ left. rewrite H. proj. split_and!.
      - intros (_ & Hv & _). congruence.
      - by left.
      - do 2 eexists. eauto. }
  destruct (Z.gtb_spec (Z.of_nat (length (raw req))) (MAX_PDF_BYTES cfg))
    as [Hs|Hs].
  { left. rewrite H. proj. split_and!.
    - intros (_ & _ & Hv). lia.
    - by right.
    - do 2 eexists. eauto 10. }
  assert (Hv : validated cfg req) by done.
  destruct (tmp_create env _) as [e|td] eqn:Htd.
  { right. left. split; [done|]. exists e. by rewrite H. }
  destruct (fs_write env _ _) as [e|] eqn:Hwr.
  { right. right. left. split; [done|]. exists td, e.
    rewrite snoc2, snoc3. by rewrite H. }
  do 3 right. eexists td, _. split_and!; [done|done|by rewrite snoc2|done].
Qed.

(** The history of a request that got through to the converter. *)
Lemma convert_ready_trace (req : ConvertRequest) (w : World)
    (td : string) (w3 : World) :
  workspace_ready cfg env req w td w3 ->
  let pdf := PyPath.join td "input.pdf" in
  let epub := PyPath.join td "output.epub" in
  let c := pdf_to_epub cfg env pdf epub w3 in
  let d := send_email_with_attachment cfg env "Your converted EPUB"
             "Attached is the EPUB converted from your PDF."
             (KINDLE_EMAIL cfg) epub c.2 in
  let r := convert_pdf_to_epub_endpoint cfg env req w in
  new_events w r.2 =
    [EvReadUpload; EvMkdtemp td; EvWriteBytes pdf;
     EvRun [EBOOK_CONVERT_BIN cfg; pdf; epub]]
    ++ match c.1 with
       | inl _ => []
       | inr _ => new_events c.2 d.2
       end
    ++ [EvRmtree td].
Proof.
  intros Hready pdf epub c d r.
  pose proof (convert_in_workspace cfg env req w td w3 Hready) as H.
  cbv zeta in H. fold pdf epub c d r in H.
  destruct Hready as (_ & _ & _ & Hw3).
  assert (Hc : events c.2 = events w ++
                 [EvReadUpload; EvMkdtemp td; EvWriteBytes pdf;
                  EvRun [EBOOK_CONVERT_BIN cfg; pdf; epub]]).
  { unfold c. rewrite pdf_to_epub_run. proj. rewrite Hw3. proj.
    by rewrite <- app_assoc. }
  destruct c.1 as [e|u].
  - rewrite H. proj. apply new_events_app.
    unfold TemporaryDirectory_cleanup. proj. rewrite Hc.
    by rewrite <- app_assoc.
  - destruct (send_email_frame cfg env "Your converted EPUB"
                "Attached is the EPUB converted from your PDF."
                (KINDLE_EMAIL cfg) epub c.2) as (_ & lm & Hd & _).
    fold d in Hd. rewrite (new_events_app _ _ _ Hd).
    assert (events (TemporaryDirectory_cleanup td d.2) =
            events w ++ ([EvReadUpload; EvMkdtemp td; EvWriteBytes pdf;
                          EvRun [EBOOK_CONVERT_BIN cfg; pdf; epub]]
                         ++ lm ++ [EvRmtree td])) as Hev.
    { unfold TemporaryDirectory_cleanup. proj. rewrite Hd, Hc.
      by rewrite <- !app_assoc. }
    destruct d.1 as [e|u']; rewrite H; proj; by apply new_events_app.
Qed.


(** Every call of [send_email_with_attachment] is the read of the
    attachment or a call to the mail server. *)
Lemma send_email_events_kind (subject body to_addr path : string) (w : World)
    (e : event) :
  let r := send_email_with_attachment cfg env subject body to_addr path w in
  In e (new_events w r.2) -> e = EvReadBytes path \/ is_network e = true.
Proof.
  intros r.
  destruct (send_email_run cfg env subject body to_addr path w) as [_ H].
  fold r in H.
  destruct (negb (PyStr.truthy (SMTP_HOST cfg)));
    [rewrite H; proj; by rewrite new_events_refl|].
  destruct (fs w !! path) as [nd|];
    [|rewrite H; proj; by rewrite new_events_refl].
  destruct H as (l & Hev & Hnet & _). rewrite (new_events_app _ _ _ Hev).
  intros [<-|Hin]; [by left|]. right.
  rewrite Forall_forall in Hnet. by apply Hnet, list_elem_of_In.
Qed.

(** Removing a fresh directory gives back the filesystem from before, when
    nothing outside the directory was changed in between. *)
Lemma cleanup_restores (td : string) (f0 f : gmap string node) :
  (forall p, PyPath.within td p = true -> f0 !! p = None) ->
  (forall p, PyPath.within td p = false -> f !! p = f0 !! p) ->
  filter (fun kv => PyPath.within td kv.1 = false) f = f0.
Proof.
  intros Hfresh Hframe. apply map_eq. intros p.
  destruct (PyPath.within td p) eqn:Hp.
  - rewrite Hfresh by done. apply map_lookup_filter_None. right.
    intros x _. cbn. congruence.
  - rewrite <- Hframe by done. destruct (f !! p) as [x|] eqn:Hf.
    + by apply map_lookup_filter_Some.
    + apply map_lookup_filter_None. by left.
Qed.

End Stages.

(** X8. A request that fails a check leaves no trace. Without a valid
    credential the world is untouched and the answer is 401 or 403,
    whatever the content type and the size; a request that fails any of the
    three checks is answered 401, 403, 400 or 413, with the filesystem and
    the outbox as before and the read of the upload as the only call that
    can have been made. *)
Theorem rejected_request_no_trace (cfg : Config) (env : Env)
    (req : ConvertRequest) (w : World) :
  let r := convert_pdf_to_epub_endpoint cfg env req w in
  (~ authorized cfg req ->
     r.2 = w /\ (r.1 = inl Unauthorized \/ r.1 = inl Forbidden)) /\
  (~ validated cfg req ->
     fs r.2 = fs w /\ outbox r.2 = outbox w /\
     (new_events w r.2 = [] \/ new_events w r.2 = [EvReadUpload]) /\
     exists c d, r.1 = inl (HTTPException c d) /\
                 (c = 401 \/ c = 403 \/ c = 400 \/ c = 413)).
Proof.
  intros r. split.
  - intros Hna. pose proof (convert_run cfg env req w) as H. cbv zeta in H.
    fold r in H. unfold authorized in Hna.
    destruct (authorize_spec _ _) as [e|[]] eqn:Ha; [|done].
    rewrite H. proj. split; [done|].
    apply authorize_spec_errors in Ha as [-> | ->]; auto.
  - intros Hnv.
    pose proof (convert_stage_cases cfg env req w) as Hcases.
    cbv zeta in Hcases. fold r in Hcases.
    destruct Hcases
      as [(_ & Hw & Hresp)|[(Hv & _)|[(Hv & _)|(td & w3 & Hv & _)]]];
      try done.
    destruct Hw as [-> | ->]; proj; split_and!; try done.
    + left. apply new_events_refl.
    + right. by apply new_events_app.
Qed.

Lemma rejected_request_no_trace_witness :
  ~ validated Demo.cfg Demo.big_pdf_req /\
  fs (convert_pdf_to_epub_endpoint Demo.cfg Demo.env Demo.big_pdf_req Demo.w0).2
    = fs Demo.w0 /\
  outbox (convert_pdf_to_epub_endpoint Demo.cfg Demo.env Demo.big_pdf_req Demo.w0).2
    = outbox Demo.w0.
Proof.
  assert (Hnv : ~ validated Demo.cfg Demo.big_pdf_req).
  { intros (_ & _ & H). vm_compute in H. by apply H. }
  destruct (rejected_request_no_trace Demo.cfg Demo.env Demo.big_pdf_req Demo.w0)
    as [_ H].
  destruct (H Hnv) as (Hfs & Hout & _).
  split_and!; [exact Hnv | exact Hfs | exact Hout].
Defined.


(** X10. Nothing of a request stays on disk. When the temporary directory
    is fresh and the converter changes nothing outside it, the filesystem
    after the request is the filesystem before it, whatever the outcome:
    neither the upload nor the converted file outlives the request. *)
Theorem convert_restores_filesystem (cfg : Config) (env : Env)
    (req : ConvertRequest) (w : World) :
  (forall td p,
     tmp_create env (events w ++ [EvReadUpload]) = inr td ->
     PyPath.within td p = true -> fs w !! p = None) ->
  (forall td w3 p,
     workspace_ready cfg env req w td w3 ->
     PyPath.within td p = false ->
     (proc_run env (events w3)
        [EBOOK_CONVERT_BIN cfg; PyPath.join td "input.pdf";
         PyPath.join td "output.epub"] (fs w3)).2 !! p = fs w3 !! p) ->
  fs (convert_pdf_to_epub_endpoint cfg env req w).2 = fs w.
Proof.
  intros Hfresh Hframe.
  pose proof (convert_stage_cases cfg env req w) as Hcases.
  cbv zeta in Hcases.
  destruct Hcases
    as [(_ & Hw & _)
       |[(_ & e & _ & Hr)
        |[(_ & td & e & Htd & _ & Hr)|(td & w3 & Hready)]]].
  - by destruct Hw as [-> | ->].
  - by rewrite Hr.
  - rewrite Hr. unfold TemporaryDirectory_cleanup. proj.
    apply cleanup_restores; [intros p Hp; exact (Hfresh td p Htd Hp)|].
    intros p Hp. apply lookup_insert_ne. intros ->.
    by rewrite within_refl in Hp.
  - pose proof (convert_in_workspace cfg env req w td w3 Hready) as H.
    cbv zeta in H.
    pose proof (Hframe td w3) as Hframe3. specialize (fun p => Hframe3 p Hready).
    destruct Hready as (_ & Htd & _ & Hw3).
    set (pdf := PyPath.join td "input.pdf") in *.
    set (epub := PyPath.join td "output.epub") in *.
    assert (Hc : forall p, PyPath.within td p = false ->
                 fs (pdf_to_epub cfg env pdf epub w3).2 !! p = fs w !! p).
    { intros p Hp. rewrite pdf_to_epub_run. proj.
      rewrite Hframe3 by done. rewrite Hw3. proj.
      rewrite !lookup_insert_ne; [done| |].
      - intros <-. by rewrite within_refl in Hp.
      - intros <-. unfold pdf in Hp. by rewrite within_join in Hp. }
    destruct (pdf_to_epub cfg env pdf epub w3) as [[e|[]] w4]; proj in H;
      proj in Hc.
    { rewrite H. unfold TemporaryDirectory_cleanup. proj.
      apply cleanup_restores; [intros p Hp; exact (Hfresh td p Htd Hp) | done]. }
    destruct (send_email_frame cfg env "Your converted EPUB"
                "Attached is the EPUB converted from your PDF."
                (KINDLE_EMAIL cfg) epub w4) as (Hfs & _).
    destruct (send_email_with_attachment cfg env _ _ _ _ w4) as [[e|[]] w5];
      proj in H; proj in Hfs; rewrite H;
      unfold TemporaryDirectory_cleanup; proj; rewrite Hfs;
      (apply cleanup_restores; [intros p Hp; exact (Hfresh td p Htd Hp) | done]).
Qed.

Lemma convert_restores_filesystem_witness :
  fs (convert_pdf_to_epub_endpoint Demo.cfg Demo.env Demo.req Demo.w0).2
    = fs Demo.w0.
Proof.
  apply (convert_restores_filesystem Demo.cfg Demo.env Demo.req Demo.w0).
  - intros td p [= <-] Hp. cbn [fs Demo.w0].
    apply lookup_singleton_ne. intros <-. vm_compute in Hp. discriminate.
  - intros td w3 p (_ & [= <-] & _ & ->) Hp. cbn [proc_run Demo.env].
    unfold Demo.good_converter. cbn [snd fs].
    apply lookup_insert_ne. intros <-. vm_compute in Hp. discriminate.
Defined.

(** X11. Each stage of [POST /convert] is reached only through the one
    before. A directory is created exactly when the three checks passed,
    a payload of exactly [MAX_PDF_BYTES] bytes included, and [mkdtemp]
    gave it; the converter is started only on the two paths inside that
    directory, after the upload was written; the mail server is contacted
    only after the conversion returned normally. *)
Theorem convert_gating (cfg : Config) (env : Env)
    (req : ConvertRequest) (w : World) :
  let r := convert_pdf_to_epub_endpoint cfg env req w in
  let l := new_events w r.2 in
  (forall td,
     In (EvMkdtemp td) l <->
     validated cfg req /\
     tmp_create env (events w ++ [EvReadUpload]) = inr td) /\
  (forall cmd,
     In (EvRun cmd) l ->
     exists td w3,
       workspace_ready cfg env req w td w3 /\
       cmd = [EBOOK_CONVERT_BIN cfg; PyPath.join td "input.pdf";
              PyPath.join td "output.epub"]) /\
  (forall e,
     In e l -> is_network e = true ->
     exists td w3,
       workspace_ready cfg env req w td w3 /\
       (pdf_to_epub cfg env (PyPath.join td "input.pdf")
          (PyPath.join td "output.epub") w3).1 = inr tt).
Proof.
  intros r l.
  pose proof (convert_stage_cases cfg env req w) as Hcases.
  cbv zeta in Hcases. fold r in Hcases.
  destruct Hcases
    as [(Hnv & Hw & _)
       |[(Hv & e & Htd & Hr)
        |[(Hv & td & e & Htd & Hwr & Hr)|(td & w3 & Hready)]]].
  - assert (Hl : l = [] \/ l = [EvReadUpload]).
    { unfold l. destruct Hw as [-> | ->];
        [left; apply new_events_refl | right; by apply new_events_app]. }
    split_and!.
    + intros td'. split; [|by intros [? _]].
      destruct Hl as [-> | ->]; cbn; intuition congruence.
    + intros cmd. destruct Hl as [-> | ->]; cbn; intuition congruence.
    + intros e'. destruct Hl as [-> | ->]; cbn; [done|].
      intros [<-|[]]. done.
  - assert (Hl : l = [EvReadUpload]).
    { unfold l. rewrite Hr. by apply new_events_app. }
    rewrite Hl. split_and!.
    + intros td'. cbn. split; [intuition congruence|].
      intros [_ Htd']. congruence.
    + intros cmd. cbn. intuition congruence.
    + intros e' [<-|[]]. done.
  - assert (Hl : l = [EvReadUpload; EvMkdtemp td;
                      EvWriteBytes (PyPath.join td "input.pdf"); EvRmtree td]).
    { unfold l. rewrite Hr. apply new_events_app.
      unfold TemporaryDirectory_cleanup. proj. by rewrite <- app_assoc. }
    rewrite Hl. split_and!.
    + intros td'. cbn. split.
      * intros [?|[[= <-]|[?|[?|[]]]]]; try congruence. done.
      * intros [_ Htd']. right. left. congruence.
    + intros cmd. cbn. intuition congruence.
    + intros e' Hin Hnet. cbn in Hin.
      destruct Hin as [<-|[<-|[<-|[<-|[]]]]]; done.
  - pose proof (convert_ready_trace cfg env req w td w3 Hready) as Hl.
    cbv zeta in Hl. fold r in Hl. fold l in Hl.
    set (pdf := PyPath.join td "input.pdf") in *.
    set (epub := PyPath.join td "output.epub") in *.
    set (c := pdf_to_epub cfg env pdf epub w3) in *.
    set (d := send_email_with_attachment cfg env "Your converted EPUB"
                "Attached is the EPUB converted from your PDF."
                (KINDLE_EMAIL cfg) epub c.2) in *.
    set (lm := match c.1 with inl _ => [] | inr _ => new_events c.2 d.2 end)
      in *.
    assert (Hlm : forall e', In e' lm ->
                  c.1 = inr tt /\ (e' = EvReadBytes epub \/ is_network e' = true)).
    { unfold lm. destruct c.1 as [e0|[]]; [done|].
      intros e' Hin. split; [done|].
      by apply (send_email_events_kind cfg env "Your converted EPUB"
                  "Attached is the EPUB converted from your PDF."
                  (KINDLE_EMAIL cfg) epub c.2). }
    rewrite Hl. split_and!.
    + intros td'. cbn. rewrite in_app_iff. cbn. split.
      * intros [?|[[= <-]|[?|[?|[Hin|[?|[]]]]]]]; try congruence.
        -- split; [apply Hready|]. by destruct Hready as (_ & ? & _).
        -- apply Hlm in Hin as (_ & [?|?]); done.
      * intros [_ Htd']. right. left.
        destruct Hready as (_ & Htd & _). congruence.
    + intros cmd. cbn. rewrite in_app_iff. cbn.
      intros [?|[?|[?|[[= <-]|[Hin|[?|[]]]]]]]; try congruence.
      * by exists td, w3.
      * apply Hlm in Hin as (_ & [?|?]); done.
    + intros e' Hin Hnet. exists td, w3. split; [done|].
      cbn in Hin. rewrite in_app_iff in Hin. cbn in Hin.
      destruct Hin as [<-|[<-|[<-|[<-|[Hin|[<-|[]]]]]]]; try done.
      by apply Hlm in Hin as (? & _).
Qed.

Lemma convert_gating_witness :
  In (EvRun ["ebook-convert"; "/tmp/tmpab12/input.pdf"; "/tmp/tmpab12/output.epub"])
     (new_events Demo.w0
        (convert_pdf_to_epub_endpoint Demo.cfg Demo.env Demo.req Demo.w0).2) /\
  exists td w3, workspace_ready Demo.cfg Demo.env Demo.req Demo.w0 td w3.
Proof.
  assert (Hin : In (EvRun ["ebook-convert"; "/tmp/tmpab12/input.pdf";
                           "/tmp/tmpab12/output.epub"])
                  (new_events Demo.w0
                     (convert_pdf_to_epub_endpoint Demo.cfg Demo.env
                        Demo.req Demo.w0).2)).
  { vm_compute. auto 10. }
  split; [exact Hin|].
  destruct (convert_gating Demo.cfg Demo.env Demo.req Demo.w0) as (_ & Hrun & _).
  destruct (Hrun _ Hin) as (td & w3 & Hready & _). by exists td, w3.
Defined.

(** ** Further properties of [POST /test-email] *)

(** X12. What [POST /test-email] delivers. The filesystem is never
    changed. The outbox grows by nothing, by the message with [/dev/null]
    attached, by the plain message of the fallback, or by the two in that
    order: a first send whose QUIT is refused has delivered its message
    and still starts the fallback. A 200 means that at least one message
    was delivered; any other answer is a 401, 403 or 502, and a 401 or 403
    leaves the world as it was. *)
Theorem test_email_delivery (cfg : Config) (env : Env)
    (h : option string) (w : World) :
  let r := test_email cfg env h w in
  let plain := plain_test_message cfg in
  fs r.2 = fs w /\
  exists ms,
    outbox r.2 = outbox w ++ ms /\
    (ms = [] \/ ms = [plain] \/
     exists data,
       fs w !! "/dev/null" = Some (File data) /\
       let am := attachment_message cfg "SMTP test (no attachment)"
                   "If you received this, SMTP is working."
                   (KINDLE_EMAIL cfg) "/dev/null" data in
       ms = [am] \/ ms = [am; plain]) /\
    match r.1 with
    | inr j =>
        j = [("ok", JBool true); ("sent_to", JStr (KINDLE_EMAIL cfg))] /\
        ms <> []
    | inl e =>
        exists c d, e = HTTPException c d /\
                    (c = 401 \/ c = 403 \/ c = 502) /\
                    (c <> 502 -> r.2 = w /\ ms = [])
    end.
Proof.
  intros r plain. pose proof (test_email_run cfg env h w) as H. cbv zeta in H.
  fold r plain in H.
  destruct (authorize_spec _ _) as [e|[]] eqn:Ha.
  { rewrite H. proj. split; [done|]. exists [].
    split_and!; [by rewrite app_nil_r|by left|].
    apply authorize_spec_errors in Ha as [-> | ->];
      do 2 eexists; split_and!; eauto. }
  set (p := send_email_with_attachment cfg env "SMTP test (no attachment)"
              "If you received this, SMTP is working."
              (KINDLE_EMAIL cfg) "/dev/null" w) in *.
  destruct (send_email_cases cfg env "SMTP test (no attachment)"
              "If you received this, SMTP is working."
              (KINDLE_EMAIL cfg) "/dev/null" w) as [Hpfs Hp].
  fold p in Hpfs, Hp.
  destruct p.1 as [e|u] eqn:Hp1.
  2:{ rewrite H. proj. split; [done|].
      destruct Hp as (data & Hf & Hout). eexists. split; [exact Hout|].
      split; [|done]. right. right. exists data. split; [done|]. by left. }
  assert (Hp' : exists ms0,
            outbox p.2 = outbox w ++ ms0 /\
            (ms0 = [] \/
             exists data,
               fs w !! "/dev/null" = Some (File data) /\
               ms0 = [attachment_message cfg "SMTP test (no attachment)"
                        "If you received this, SMTP is working."
                        (KINDLE_EMAIL cfg) "/dev/null" data])).
  { destruct Hp as [Hout|(data & q & Hf & Hout & _)].
    - exists []. rewrite app_nil_r. auto.
    - eexists. split; [exact Hout|]. right. eauto. }
  clear Hp. destruct Hp' as (ms0 & Hout0 & Hms0).
  assert (Hstop : forall d,
            r = (inl (HTTPException 502 d), p.2) ->
            fs r.2 = fs w /\
            exists ms,
              outbox r.2 = outbox w ++ ms /\
              (ms = [] \/ ms = [plain] \/
               exists data,
                 fs w !! "/dev/null" = Some (File data) /\
                 let am := attachment_message cfg "SMTP test (no attachment)"
                             "If you received this, SMTP is working."
                             (KINDLE_EMAIL cfg) "/dev/null" data in
                 ms = [am] \/ ms = [am; plain]) /\
              match r.1 with
              | inr j =>
                  j = [("ok", JBool true); ("sent_to", JStr (KINDLE_EMAIL cfg))]
                  /\ ms <> []
              | inl e =>
                  exists c d, e = HTTPException c d /\
                              (c = 401 \/ c = 403 \/ c = 502) /\
                              (c <> 502 -> r.2 = w /\ ms = [])
              end).
  { intros d ->. proj. split; [done|]. exists ms0. split; [done|]. split.
    - destruct Hms0 as [->|(data & Hf & ->)]; [by left|].
      right. right. exists data. split; [done|]. by left.
    - do 2 eexists. split_and!; [done|by right; right|done]. }
  destruct (negb (PyStr.truthy (SMTP_HOST cfg))); [by eapply Hstop|].
  destruct (message_error env plain) as [e'|]; [by eapply Hstop|].
  clear Hstop.
  destruct (smtp_session_run cfg env plain p.2)
    as (Hqfs & l & _ & _ & _ & Hq).
  set (q := smtp_session cfg env plain p.2) in *.
  assert (Hr2 : r.2 = q.2) by (by destruct q.1; rewrite H).
  rewrite Hr2. split; [congruence|].
  destruct q.1 as [e'|[]]; rewrite H; proj.
  - destruct Hq as [Hq|(Hq & _)].
    + exists ms0. split; [congruence|]. split.
      * destruct Hms0 as [->|(data & Hf & ->)]; [by left|].
        right. right. exists data. split; [done|]. by left.
      * do 2 eexists. split_and!; [done|by right; right|done].
    + exists (ms0 ++ [plain]). split; [by rewrite Hq, Hout0, app_assoc|]. split.
      * destruct Hms0 as [->|(data & Hf & ->)]; [by right; left|].
        right. right. exists data. split; [done|]. by right.
      * do 2 eexists. split_and!; [done|by right; right|done].
  - destruct Hq as [_ Hq].
    exists (ms0 ++ [plain]). split; [by rewrite Hq, Hout0, app_assoc|]. split.
    + destruct Hms0 as [->|(data & Hf & ->)]; [by right; left|].
      right. right. exists data. split; [done|]. by right.
    + split; [done|]. by destruct ms0.
Qed.

(** ** An unset mail host *)

(** X13. With [SMTP_HOST] unset nothing is ever sent. An authorized
    [POST /test-email] is answered 502 with the world untouched; a
    [POST /convert] never contacts a mail server, and one whose conversion
    succeeded is answered 502 with ["SMTP_HOST is not set"], the check
    being made only after the converter has run. *)
Theorem unset_mail_host (cfg : Config) (env : Env) :
  SMTP_HOST cfg = EmptyString ->
  (forall h w,
     authorize_spec (BEARER_TOKEN cfg) h = inr tt ->
     test_email cfg env h w =
       (inl (HTTPException 502 "SMTP_HOST is not set"), w)) /\
  (forall req w td w3,
     workspace_ready cfg env req w td w3 ->
     (pdf_to_epub cfg env (PyPath.join td "input.pdf")
        (PyPath.join td "output.epub") w3).1 = inr tt ->
     (convert_pdf_to_epub_endpoint cfg env req w).1 =
       inl (HTTPException 502 "SMTP_HOST is not set") /\
     In (EvRun [EBOOK_CONVERT_BIN cfg; PyPath.join td "input.pdf";
                PyPath.join td "output.epub"])
        (new_events w (convert_pdf_to_epub_endpoint cfg env req w).2)) /\
  (forall req w e,
     In e (new_events w (convert_pdf_to_epub_endpoint cfg env req w).2) ->
     is_network e = false).
Proof.
  intros Hhost.
  assert (Hsend : forall subject body to_addr path w,
            send_email_with_attachment cfg env subject body to_addr path w =
              (inl (RuntimeError "SMTP_HOST is not set"), w)).
  { intros. unfold send_email_with_attachment. by rewrite Hhost. }
  split_and!.
  - intros h w Ha. pose proof (test_email_run cfg env h w) as H.
    cbv zeta in H. rewrite Ha, Hsend, Hhost in H. exact H.
  - intros req w td w3 Hready Hc.
    pose proof (convert_ready_trace cfg env req w td w3 Hready) as Hl.
    cbv zeta in Hl. rewrite Hc in Hl. rewrite Hl.
    rewrite (convert_in_workspace cfg env req w td w3 Hready).
    rewrite Hc, Hsend. proj. split; [done|]. cbn. auto.
  - intros req w e.
    pose proof (convert_stage_cases cfg env req w) as Hcases.
    cbv zeta in Hcases.
    destruct Hcases
      as [(_ & Hw & _)
         |[(_ & e0 & _ & Hr)
          |[(_ & td & e0 & _ & _ & Hr)|(td & w3 & Hready)]]].
    + destruct Hw as [-> | ->].
      * by rewrite new_events_refl.
      * rewrite (new_events_app _ _ [EvReadUpload]) by done.
        intros [<-|[]]. done.
    + rewrite Hr. rewrite (new_events_app _ _ [EvReadUpload]) by done.
      intros [<-|[]]. done.
    + rewrite Hr.
      rewrite (new_events_app _ _
                 [EvReadUpload; EvMkdtemp td;
                  EvWriteBytes (PyPath.join td "input.pdf"); EvRmtree td]).
      * intros [<-|[<-|[<-|[<-|[]]]]]; done.
      * unfold TemporaryDirectory_cleanup. proj. by rewrite <- app_assoc.
    + pose proof (convert_ready_trace cfg env req w td w3 Hready) as Hl.
      cbv zeta in Hl. rewrite Hl. rewrite Hsend. proj.
      rewrite new_events_refl.
      destruct (pdf_to_epub cfg env _ _ w3).1; cbn;
        intros [<-|[<-|[<-|[<-|[<-|[]]]]]]; done.
Qed.

Lemma unset_mail_host_witness :
  SMTP_HOST Demo.cfg_no_host = EmptyString /\
  test_email Demo.cfg_no_host Demo.env (Some "Bearer s3cret") Demo.w0 =
    (inl (HTTPException 502 "SMTP_HOST is not set"), Demo.w0).
Proof.
  split; [reflexivity|].
  apply (unset_mail_host Demo.cfg_no_host Demo.env); reflexivity.
Defined.

Lemma no_secrets_without_tls_witness :
  SMTP_TLS Demo.cfg = true /\
  In (EvLogin "mailer" "pw")
     (new_events Demo.w0
        (smtp_session Demo.cfg Demo.env (plain_test_message Demo.cfg) Demo.w0).2) /\
  smtp_starttls Demo.env
    (events Demo.w0 ++ [EvSmtpConnect "smtp.example.com" 587 30]) = None.
Proof.
  assert (Hin : In (EvLogin "mailer" "pw")
     (new_events Demo.w0
        (smtp_session Demo.cfg Demo.env (plain_test_message Demo.cfg) Demo.w0).2)).
  { vm_compute. auto. }
  split_and!; [reflexivity | exact Hin |].
  apply (no_secrets_without_tls Demo.cfg Demo.env (plain_test_message Demo.cfg)
           Demo.w0); [reflexivity|].
  exists (EvLogin "mailer" "pw"). split; [exact Hin | reflexivity].
Defined.

Lemma send_email_errors_witness :
  (send_email_with_attachment Demo.cfg_two_line_from Demo.strict_env
     "s" "b" "to@example.com" "/dev/null" Demo.w0).1
    = inl (OtherException
             "Header values may not contain linefeed or carriage return characters") /\
  message_error Demo.strict_env
    (attachment_message Demo.cfg_two_line_from "s" "b" "to@example.com"
       "/dev/null" [])
    = Some (OtherException
              "Header values may not contain linefeed or carriage return characters") /\
  (send_email_with_attachment Demo.cfg_two_line_from Demo.strict_env
     "s" "b" "to@example.com" "/dev/null" Demo.w0).2
    = logged (EvReadBytes "/dev/null") Demo.w0.
Proof.
  assert (Hraise :
    (send_email_with_attachment Demo.cfg_two_line_from Demo.strict_env
       "s" "b" "to@example.com" "/dev/null" Demo.w0).1
      = inl (OtherException
               "Header values may not contain linefeed or carriage return characters"))
    by reflexivity.
  pose proof (send_email_errors Demo.cfg_two_line_from Demo.strict_env
                "s" "b" "to@example.com" "/dev/null" Demo.w0 _ Hraise) as H.
  cbv zeta in H.
  destruct H as [(Hh & _)|[(_ & Hp & _)|[(_ & Hp & _)|(data & _ & Hp & H)]]];
    [discriminate Hh | discriminate Hp | discriminate Hp |].
  assert (data = []) as -> by (vm_compute in Hp; congruence).
  destruct H as [(Hr & _)|[(_ & Hm & Hw)|(_ & Hm & _)]];
    [discriminate Hr | | discriminate Hm].
  split_and!; [exact Hraise | exact Hm | exact Hw].
Defined.

(** ** The settings *)

Section Settings.

Lemma lower_char_letter (a c : ascii) :
  In a ["1"; "t"; "r"; "u"; "e"; "y"; "s"]%char ->
  PyConfig.lower_char c = a <-> c = a \/ c = PyConfig.capital a.
Proof.
  intros Ha. cbn in Ha.
  destruct Ha as [<-|[<-|[<-|[<-|[<-|[<-|[<-|[]]]]]]]];
    destruct c as [[] [] [] [] [] [] [] []]; vm_compute;
    (split; [intros [=]; auto | intros [[=]|[=]]; reflexivity]).
Qed.

Lemma lower_spells (word value : string) :
  Forall (fun a => In a ["1"; "t"; "r"; "u"; "e"; "y"; "s"]%char)
    (list_ascii_of_string word) ->
  PyConfig.lower value = word <-> PyConfig.spells word value.
Proof.
  revert value. induction word as [|a word IH]; intros value Hw.
  - destruct value; cbn; split; (done || discriminate).
  - apply Forall_cons in Hw as [Ha Hw].
    destruct value as [|b value]; cbn; [split; (done || discriminate)|].
    rewrite <- (IH value Hw), <- (lower_char_letter a b Ha).
    split; [intros [= -> ->]; done | intros [-> ->]; done].
Qed.

Lemma environ_get_absent (environ : gmap string string) (k d : string) :
  environ !! k = None -> PyConfig.environ_get environ k d = d.
Proof. unfold PyConfig.environ_get. by intros ->. Qed.

Lemma environ_get_present (environ : gmap string string) (k d v : string) :
  environ !! k = Some v -> PyConfig.environ_get environ k d = v.
Proof. unfold PyConfig.environ_get. by intros ->. Qed.

End Settings.

(** X14. TLS is switched on exactly when [SMTP_TLS] is not set or is set
    to [1], [true] or [yes] with each letter in either case. Nothing is
    trimmed and no other word counts: [on], an empty value or a value with
    a space around it switch TLS off. *)
Theorem smtp_tls_setting (py_int : string -> exn + Z)
    (environ : gmap string string) (cfg : Config) :
  PyConfig.load_config py_int environ = inr cfg ->
  (SMTP_TLS cfg = true <->
     environ !! "SMTP_TLS" = None \/
     exists v, environ !! "SMTP_TLS" = Some v /\
       (PyConfig.spells "1" v \/ PyConfig.spells "true" v
        \/ PyConfig.spells "yes" v)) /\
  (forall v, environ !! "SMTP_TLS" = Some v ->
     In v ["on"; EmptyString; " true"; "true "; "0"; "false"] ->
     SMTP_TLS cfg = false).
Proof.
  unfold PyConfig.load_config.
  destruct (py_int _) as [e|port]; [done|].
  destruct (py_int _) as [e|max_bytes]; [done|].
  intros [= <-]. cbn [SMTP_TLS].
  assert (Hflag : forall v, PyConfig.tls_flag v = true <->
            PyConfig.spells "1" v \/ PyConfig.spells "true" v
            \/ PyConfig.spells "yes" v).
  { intros v. unfold PyConfig.tls_flag.
    rewrite !orb_true_iff, !bool_decide_eq_true.
    rewrite !lower_spells by (cbn; repeat constructor; cbn; auto 10).
    tauto. }
  split.
  - destruct (environ !! "SMTP_TLS") as [v|] eqn:Hv.
    + rewrite (environ_get_present _ _ _ v) by done. rewrite Hflag.
      split; [intros H; right; eauto|].
      intros [?|(v' & [= <-] & H)]; done.
    + rewrite environ_get_absent by done. split; [auto|]. by intros _.
  - intros v Hv Hin. rewrite (environ_get_present _ _ _ v) by done.
    cbn in Hin.
    destruct Hin as [<-|[<-|[<-|[<-|[<-|[<-|[]]]]]]]; reflexivity.
Qed.

Lemma smtp_tls_setting_witness :
  PyConfig.load_config PyConfig.demo_int {[ "SMTP_TLS" := "Yes" ]}
    = inr {| BEARER_TOKEN := "change-me";
             KINDLE_EMAIL := "change-me";
             SMTP_HOST := EmptyString;
             SMTP_PORT := 587;
             SMTP_USER := EmptyString;
             SMTP_PASS := EmptyString;
             SMTP_FROM := "noreply@example.com";
             SMTP_TLS := true;
             EBOOK_CONVERT_BIN := "ebook-convert";
             MAX_PDF_BYTES := 26214400 |} /\
  (true = true <->
     ({[ "SMTP_TLS" := "Yes" ]} : gmap string string) !! "SMTP_TLS" = None \/
     exists v, ({[ "SMTP_TLS" := "Yes" ]} : gmap string string) !! "SMTP_TLS"
               = Some v /\
       (PyConfig.spells "1" v \/ PyConfig.spells "true" v
        \/ PyConfig.spells "yes" v)).
Proof.
  assert (Hload : PyConfig.load_config PyConfig.demo_int {[ "SMTP_TLS" := "Yes" ]}
    = inr {| BEARER_TOKEN := "change-me";
             KINDLE_EMAIL := "change-me";
             SMTP_HOST := EmptyString;
             SMTP_PORT := 587;
             SMTP_USER := EmptyString;
             SMTP_PASS := EmptyString;
             SMTP_FROM := "noreply@example.com";
             SMTP_TLS := true;
             EBOOK_CONVERT_BIN := "ebook-convert";
             MAX_PDF_BYTES := 26214400 |}) by (vm_compute; reflexivity).
  split; [exact Hload|].
  exact (proj1 (smtp_tls_setting PyConfig.demo_int _ _ Hload)).
Defined.

(** X15. A service started without [BEARER_TOKEN] in its environment
    accepts the token [change-me] on both endpoints' check; started
    without [SMTP_HOST] it answers an authorized [POST /test-email] with
    502 and leaves the world alone. *)
Theorem unconfigured_service (py_int : string -> exn + Z)
    (environ : gmap string string) (cfg : Config) (env : Env) :
  PyConfig.load_config py_int environ = inr cfg ->
  (environ !! "BEARER_TOKEN" = None ->
     forall w, require_bearer cfg (Some "Bearer change-me") w = (inr tt, w)) /\
  (environ !! "SMTP_HOST" = None ->
     forall h w,
       authorize_spec (BEARER_TOKEN cfg) h = inr tt ->
       test_email cfg env h w =
         (inl (HTTPException 502 "SMTP_HOST is not set"), w)).
Proof.
  intros Hload.
  assert (Hfields :
    BEARER_TOKEN cfg = PyConfig.environ_get environ "BEARER_TOKEN" "change-me" /\
    SMTP_HOST cfg = PyConfig.environ_get environ "SMTP_HOST" EmptyString).
  { unfold PyConfig.load_config in Hload.
    destruct (py_int _) as [e|port]; [done|].
    destruct (py_int _) as [e|max_bytes]; [done|].
    by injection Hload as <-. }
  destruct Hfields as [Hbearer Hhost]. split.
  - intros Hb w. rewrite require_bearer_spec, Hbearer.
    by rewrite environ_get_absent.
  - intros Hh h w Ha. rewrite environ_get_absent in Hhost by done.
    pose proof (test_email_run cfg env h w) as H. cbv zeta in H.
    rewrite Ha in H.
    assert (Hsend : forall subject body to_addr path,
              send_email_with_attachment cfg env subject body to_addr path w =
                (inl (RuntimeError "SMTP_HOST is not set"), w)).
    { intros. unfold send_email_with_attachment. by rewrite Hhost. }
    rewrite Hsend, Hhost in H. exact H.
Qed.

Lemma unconfigured_service_witness :
  PyConfig.load_config PyConfig.demo_int ∅
    = inr {| BEARER_TOKEN := "change-me";
             KINDLE_EMAIL := "change-me";
             SMTP_HOST := EmptyString;
             SMTP_PORT := 587;
             SMTP_USER := EmptyString;
             SMTP_PASS := EmptyString;
             SMTP_FROM := "noreply@example.com";
             SMTP_TLS := true;
             EBOOK_CONVERT_BIN := "ebook-convert";
             MAX_PDF_BYTES := 26214400 |} /\
  (∅ : gmap string string) !! "BEARER_TOKEN" = None /\
  require_bearer
    {| BEARER_TOKEN := "change-me";
       KINDLE_EMAIL := "change-me";
       SMTP_HOST := EmptyString;
       SMTP_PORT := 587;
       SMTP_USER := EmptyString;
       SMTP_PASS := EmptyString;
       SMTP_FROM := "noreply@example.com";
       SMTP_TLS := true;
       EBOOK_CONVERT_BIN := "ebook-convert";
       MAX_PDF_BYTES := 26214400 |}
    (Some "Bearer change-me") Demo.w0 = (inr tt, Demo.w0).
Proof.
  assert (Hload : PyConfig.load_config PyConfig.demo_int ∅
    = inr {| BEARER_TOKEN := "change-me";
             KINDLE_EMAIL := "change-me";
             SMTP_HOST := EmptyString;
             SMTP_PORT := 587;
             SMTP_USER := EmptyString;
             SMTP_PASS := EmptyString;
             SMTP_FROM := "noreply@example.com";
             SMTP_TLS := true;
             EBOOK_CONVERT_BIN := "ebook-convert";
             MAX_PDF_BYTES := 26214400 |}) by (vm_compute; reflexivity).
  split_and!; [exact Hload | reflexivity |].
  apply (unconfigured_service PyConfig.demo_int ∅ _ Demo.env Hload).
  reflexivity.
Defined.

Lemma pdf_to_epub_single_run_witness :
  (pdf_to_epub Demo.cfg Demo.silent_env "/w/input.pdf" "/w/output.epub"
     Demo.w0).1 = inl EmptyOutput /\
  ((exists m, EmptyOutput = RuntimeError ("Conversion failed: " +:+ m)) \/
   (proc_run Demo.silent_env (events Demo.w0)
      [EBOOK_CONVERT_BIN Demo.cfg; "/w/input.pdf"; "/w/output.epub"]
      (fs Demo.w0)).1 = RunRaised EmptyOutput).
Proof.
  split; [reflexivity|].
  apply (pdf_to_epub_single_run Demo.cfg Demo.silent_env "/w/input.pdf"
           "/w/output.epub" Demo.w0). reflexivity.
Defined.
